(** * Conversation state of the Telegram-clone chat application

    The repository holds two React implementations of the same chat
    screen.  [ChatApp] embeds the single-component implementation
    (chats carry their own [messages], messages carry a boolean
    [isRead]); [ChatRoute] embeds [app/routes/chat.tsx] (messages live in
    a separate record keyed by chat id and carry a three-valued
    [status]).

    Component state is threaded explicitly.  A state setter called with
    an updater function is the application of that function; values a
    handler closes over (the active chat id, the text being sent) are
    captured in the pending timer or continuation it leaves behind.
    Clock readings ([Date.now()]) and random draws are inputs of the
    event that needs them. *)

From Stdlib Require Import ZArith String Ascii List Lia Bool.
From stdpp Require Import gmap strings list fin_maps pretty.
Import ListNotations.
Local Open Scope string_scope.
Local Open Scope list_scope.

(** ** Host primitives the source calls

    Strings are sequences of code units below 256 (the Latin-1 range);
    every string the source manipulates other than the avatar glyphs lies
    in it. *)

Module JS.

(** White space and line terminators, as [String.prototype.trim] strips
    them: TAB, LF, VT, FF, CR, SP and NBSP. *)
Definition isWhiteSpace (c : ascii) : bool :=
  let n := N_of_ascii c in
  ((9 <=? n) && (n <=? 13) || (n =? 32) || (n =? 160))%N.

Fixpoint trimStart (s : string) : string :=
  match s with
  | EmptyString => EmptyString
  | String c s' => if isWhiteSpace c then trimStart s' else s
  end.

Fixpoint trimEnd (s : string) : string :=
  match s with
  | EmptyString => EmptyString
  | String c s' =>
      match trimEnd s' with
      | EmptyString => if isWhiteSpace c then EmptyString else String c EmptyString
      | t => String c t
      end
  end.

(** [s.trim()] *)
Definition trim (s : string) : string := trimEnd (trimStart s).

(** Truthiness of a string: every string but the empty one. *)
Definition truthy (s : string) : bool :=
  match s with
  | EmptyString => false
  | String _ _ => true
  end.

(** Truthiness of [string | null]. *)
Definition truthy_opt (o : option string) : bool :=
  match o with
  | None => false
  | Some s => truthy s
  end.

Definition lowerChar (c : ascii) : ascii :=
  let n := N_of_ascii c in
  if ((65 <=? n) && (n <=? 90)
      || (192 <=? n) && (n <=? 222) && negb (n =? 215))%N
  then ascii_of_N (n + 32)
  else c.

(** [s.toLowerCase()] *)
Fixpoint toLowerCase (s : string) : string :=
  match s with
  | EmptyString => EmptyString
  | String c s' => String (lowerChar c) (toLowerCase s')
  end.

(** [s.startsWith(t)] *)
Definition startsWith (s t : string) : bool := String.prefix t s.

(** [s.includes(t)]: [t] occurs in [s] at some position. *)
Fixpoint includes (s t : string) : bool :=
  if startsWith s t then true
  else match s with
       | EmptyString => false
       | String _ s' => includes s' t
       end.

(** Decimal digits and their values. *)
Definition isDigit (c : ascii) : bool :=
  let n := N_of_ascii c in ((48 <=? n) && (n <=? 57))%N.

Definition digitVal (c : ascii) : Z := (Z.of_N (N_of_ascii c) - 48)%Z.

(** [n.toString()] for an integral number. *)
Definition toString (n : Z) : string := pretty n.

(** [Math.floor(a / b)] for integral [a] and positive [b]. *)
Definition floorDiv (a b : Z) : Z := (a / b)%Z.

(** The property names of [Object.prototype].  An object used as a
    record answers [record[name]] for such a name with the inherited
    member when it holds no property of its own under it. *)
Definition objectPrototype : list string :=
  [ "constructor"; "hasOwnProperty"; "isPrototypeOf"; "propertyIsEnumerable";
    "toLocaleString"; "toString"; "valueOf"; "__proto__";
    "__defineGetter__"; "__defineSetter__"; "__lookupGetter__"; "__lookupSetter__" ].

Definition inherited (name : string) : bool :=
  List.existsb (String.eqb name) objectPrototype.

End JS.

(** ** Types shared by the two implementations *)

(** ['user' | 'ai' | 'contact'] *)
Inductive Sender : Set := user | ai | contact.

(** ['ai' | 'contact'] *)
Inductive ChatType : Set := ai_chat | contact_chat.

(** A [Date] holds a time value in milliseconds, or is invalid. *)
Inductive Date : Set :=
| DateMs (t : Z)
| InvalidDate.

(** What a [timestamp] field holds at run time: a [Date], or the text a
    [Date] was serialised to when nothing converted it back. *)
Inductive Timestamp : Set :=
| TDate (d : Date)
| TString (s : string).

#[global] Instance Sender_eq_dec : EqDecision Sender.
Proof. solve_decision. Defined.
#[global] Instance ChatType_eq_dec : EqDecision ChatType.
Proof. solve_decision. Defined.
#[global] Instance Date_eq_dec : EqDecision Date.
Proof. solve_decision. Defined.
#[global] Instance Timestamp_eq_dec : EqDecision Timestamp.
Proof. solve_decision. Defined.

Definition Sender_eqb (a b : Sender) : bool := bool_decide (a = b).
Definition ChatType_eqb (a b : ChatType) : bool := bool_decide (a = b).

(** ** The single-component implementation ([ChatApp]) *)

Module ChatApp.

Module Message.
Record t : Set := mk {
  id : string;
  text : string;
  timestamp : Timestamp;
  sender : Sender;
  isRead : bool
}.

(** [{ ...msg, isRead: b }] *)
Definition with_isRead (b : bool) (msg : t) : t :=
  mk (id msg) (text msg) (timestamp msg) (sender msg) b.

(** [{ ...msg, timestamp: ts }] *)
Definition with_timestamp (ts : Timestamp) (msg : t) : t :=
  mk (id msg) (text msg) ts (sender msg) (isRead msg).
End Message.

Module Chat.
Record t : Set := mk {
  id : string;
  name : string;
  type : ChatType;
  avatar : string;
  lastMessage : option Message.t;
  messages : list Message.t;
  isOnline : bool;
  unreadCount : nat
}.

(** [{ ...chat, messages: ms }] *)
Definition with_messages (ms : list Message.t) (chat : t) : t :=
  mk (id chat) (name chat) (type chat) (avatar chat) (lastMessage chat)
     ms (isOnline chat) (unreadCount chat).

(** [{ ...chat, lastMessage: lm }] *)
Definition with_lastMessage (lm : option Message.t) (chat : t) : t :=
  mk (id chat) (name chat) (type chat) (avatar chat) lm
     (messages chat) (isOnline chat) (unreadCount chat).

(** [{ ...chat, unreadCount: n, messages: ms }] *)
Definition with_unreadCount_messages (n : nat) (ms : list Message.t) (chat : t) : t :=
  mk (id chat) (name chat) (type chat) (avatar chat) (lastMessage chat)
     ms (isOnline chat) n.
End Chat.

#[global] Instance Message_eq_dec : EqDecision Message.t.
Proof. solve_decision. Defined.
#[global] Instance Chat_eq_dec : EqDecision Chat.t.
Proof. solve_decision. Defined.

(** The seed data; [now] is the reading of [Date.now()] when the module is
    loaded.  The avatar glyphs are outside the Latin-1 range and are
    written as their names. *)
Definition mockChats (now : Z) : list Chat.t :=
  [ Chat.mk "1" "AI Assistant" ai_chat ":robot:" None
      [ Message.mk "1" "Hello! I'm your AI assistant. How can I help you today?"
          (TDate (DateMs (now - 60000))) ai true ]
      true 0;
    Chat.mk "2" "ChatGPT" ai_chat ":brain:" None
      [ Message.mk "2" "I can help you with coding, writing, analysis, and much more!"
          (TDate (DateMs (now - 120000))) ai false ]
      true 2;
    Chat.mk "3" "John Doe" contact_chat ":man:" None
      [ Message.mk "3" "Hey, how are you doing?"
          (TDate (DateMs (now - 300000))) contact false ]
      false 1;
    Chat.mk "4" "Jane Smith" contact_chat ":woman:" None
      [ Message.mk "4" "Thanks for your help with the project!"
          (TDate (DateMs (now - 3600000))) contact true ]
      true 0 ].

(** A reply timer set by [sendMessage]: the callback closes over the
    active chat id and the text of the render that sent. *)
Record Timer : Set := mkTimer {
  timer_chat : string;
  timer_text : string
}.

(** The component's state cells, and the timers still to fire. *)
Record State : Set := mkState {
  chats : list Chat.t;
  activeChat : option string;
  searchQuery : string;
  newMessage : string;
  isTyping : bool;
  timers : list Timer
}.

(** The mount effect: every chat's [lastMessage] becomes
    [chat.messages[chat.messages.length - 1]]. *)
Definition updateLastMessages (cs : list Chat.t) : list Chat.t :=
  map (fun chat => Chat.with_lastMessage (last (Chat.messages chat)) chat) cs.

(** [chats.filter(chat => chat.name.toLowerCase().includes(searchQuery.toLowerCase()))] *)
Definition filteredChats (cs : list Chat.t) (searchQuery : string) : list Chat.t :=
  List.filter
    (fun chat => JS.includes (JS.toLowerCase (Chat.name chat)) (JS.toLowerCase searchQuery))
    cs.

Definition aiChats (cs : list Chat.t) (searchQuery : string) : list Chat.t :=
  List.filter (fun chat => ChatType_eqb (Chat.type chat) ai_chat) (filteredChats cs searchQuery).

Definition contactChats (cs : list Chat.t) (searchQuery : string) : list Chat.t :=
  List.filter (fun chat => ChatType_eqb (Chat.type chat) contact_chat) (filteredChats cs searchQuery).

(** [chats.find(chat => chat.id === activeChat)] *)
Definition findChat (cs : list Chat.t) (active : option string) : option Chat.t :=
  match active with
  | None => None
  | Some a => List.find (fun chat => String.eqb (Chat.id chat) a) cs
  end.

Definition currentChat (st : State) : option Chat.t :=
  findChat (chats st) (activeChat st).

(** [formatLastSeen], for a valid date [d] and the clock reading [now]. *)
Definition formatLastSeen (now d : Z) : string :=
  let diff := (now - d)%Z in
  let minutes := JS.floorDiv diff 60000 in
  let hours := JS.floorDiv diff 3600000 in
  let days := JS.floorDiv diff 86400000 in
  if (minutes <? 1)%Z then "just now"
  else if (minutes <? 60)%Z then JS.toString minutes +:+ "m ago"
  else if (hours <? 24)%Z then JS.toString hours +:+ "h ago"
  else JS.toString days +:+ "d ago".

Definition responses : list string :=
  [ "That's an interesting question! Let me think about that...";
    "I understand what you're asking. Here's my perspective:";
    "Great point! I can help you with that.";
    "Thanks for sharing that with me. Here's what I think:";
    "I see what you mean. Let me provide some insights:";
    "That's a thoughtful question. Here's how I'd approach it:";
    "Interesting! I'd be happy to help you explore that further.";
    "I appreciate you asking. Here's my take on it:" ].

(** [generateAIResponse]; [pick] is the drawn index
    [Math.floor(Math.random() * responses.length)], which is below
    [length responses]. *)
Definition generateAIResponse (pick : nat) (userMessage : string) : string :=
  default "" (responses !! pick).

(** [{ ...chat, messages: [...chat.messages, message] }] for the chat(s)
    whose id is [chatId]. *)
Definition appendTo (chatId : string) (message : Message.t) (cs : list Chat.t) : list Chat.t :=
  map (fun chat =>
         if String.eqb (Chat.id chat) chatId
         then Chat.with_messages (Chat.messages chat ++ [message]) chat
         else chat) cs.

(** [sendMessage]; [now] is the clock reading. *)
Definition sendMessage (now : Z) (st : State) : State :=
  if negb (JS.truthy (JS.trim (newMessage st))) || negb (JS.truthy_opt (activeChat st))
  then st
  else
    match activeChat st with
    | None => st
    | Some active =>
        let message :=
          Message.mk (JS.toString now) (newMessage st) (TDate (DateMs now)) user true in
        let chats' := appendTo active message (chats st) in
        match findChat (chats st) (Some active) with
        | Some chat =>
            if ChatType_eqb (Chat.type chat) ai_chat
            then mkState chats' (activeChat st) (searchQuery st) "" true
                   (timers st ++ [mkTimer active (newMessage st)])
            else mkState chats' (activeChat st) (searchQuery st) "" (isTyping st) (timers st)
        | None =>
            mkState chats' (activeChat st) (searchQuery st) "" (isTyping st) (timers st)
        end
    end.

(** The callback of a reply timer; [now] and [pick] are the clock reading
    and the random draw when it runs. *)
Definition timerCallback (tm : Timer) (now : Z) (pick : nat) (st : State) : State :=
  let aiResponse :=
    Message.mk (JS.toString (now + 1)) (generateAIResponse pick (timer_text tm))
      (TDate (DateMs now)) ai true in
  mkState (appendTo (timer_chat tm) aiResponse (chats st))
    (activeChat st) (searchQuery st) (newMessage st) false (timers st).

(** The [i]-th pending timer fires: it leaves the pending list and its
    callback runs.  Nothing happens when there is no such timer. *)
Definition fireTimer (i : nat) (now : Z) (pick : nat) (st : State) : State :=
  match timers st !! i with
  | None => st
  | Some tm =>
      timerCallback tm now pick
        (mkState (chats st) (activeChat st) (searchQuery st) (newMessage st)
           (isTyping st) (delete i (timers st)))
  end.

(** [createNewChat] *)
Definition createNewChat (ty : ChatType) (now : Z) (st : State) : State :=
  let newChat :=
    Chat.mk (JS.toString now)
      (match ty with ai_chat => "New AI Assistant" | contact_chat => "New Contact" end)
      ty
      (match ty with ai_chat => ":robot:" | contact_chat => ":bust:" end)
      None [] true 0 in
  mkState (newChat :: chats st) (Some (Chat.id newChat)) (searchQuery st)
    (newMessage st) (isTyping st) (timers st).

(** [markAsRead], as the updater it passes to [setChats]. *)
Definition markAsReadChats (chatId : string) (cs : list Chat.t) : list Chat.t :=
  map (fun chat =>
         if String.eqb (Chat.id chat) chatId
         then Chat.with_unreadCount_messages 0
                (map (Message.with_isRead true) (Chat.messages chat)) chat
         else chat) cs.

Definition markAsRead (chatId : string) (st : State) : State :=
  mkState (markAsReadChats chatId (chats st)) (activeChat st) (searchQuery st)
    (newMessage st) (isTyping st) (timers st).

Definition setActiveChat (a : option string) (st : State) : State :=
  mkState (chats st) a (searchQuery st) (newMessage st) (isTyping st) (timers st).

Definition setSearchQuery (q : string) (st : State) : State :=
  mkState (chats st) (activeChat st) q (newMessage st) (isTyping st) (timers st).

Definition setNewMessage (s : string) (st : State) : State :=
  mkState (chats st) (activeChat st) (searchQuery st) s (isTyping st) (timers st).

(** The click handler of a chat row:
    [setActiveChat(chat.id); markAsRead(chat.id)]. *)
Definition selectChat (chatId : string) (st : State) : State :=
  markAsRead chatId (setActiveChat (Some chatId) st).

(** The state after mounting on the initial [chats]: the other cells
    take their initial values and the mount effect has run. *)
Definition mounted (initial : list Chat.t) : State :=
  mkState (updateLastMessages initial) None "" "" false [].

(** What the user and the timers can do.  A chat row exists only for a
    chat of the filtered list; the composer exists only while the active
    id finds a chat. *)
Inductive step : State -> State -> Prop :=
| step_search st q :
    step st (setSearchQuery q st)
| step_type st s :
    currentChat st <> None -> step st (setNewMessage s st)
| step_send st now :
    currentChat st <> None -> step st (sendMessage now st)
| step_timer st i now pick :
    i < length (timers st) -> pick < length responses ->
    step st (fireTimer i now pick st)
| step_new st ty now :
    step st (createNewChat ty now st)
| step_click st chat :
    chat ∈ filteredChats (chats st) (searchQuery st) ->
    step st (selectChat (Chat.id chat) st).

(** States reachable from [s0]. *)
Inductive reachable (s0 : State) : State -> Prop :=
| reach_init : reachable s0 s0
| reach_step s s' : reachable s0 s -> step s s' -> reachable s0 s'.

End ChatApp.

(** ** The route implementation ([app/routes/chat.tsx]) *)

Module ChatRoute.

(** ['sent' | 'delivered' | 'read'] *)
Inductive Status : Set := sent | delivered | read.

#[global] Instance Status_eq_dec : EqDecision Status.
Proof. solve_decision. Defined.

Module Message.
Record t : Set := mk {
  id : string;
  text : string;
  sender : Sender;
  timestamp : Timestamp;
  status : Status
}.

(** [{ ...msg, status: s }] *)
Definition with_status (s : Status) (msg : t) : t :=
  mk (id msg) (text msg) (sender msg) (timestamp msg) s.
End Message.

Module Chat.
Record t : Set := mk {
  id : string;
  name : string;
  type : ChatType;
  avatar : string;
  lastMessage : option Message.t;
  unreadCount : nat;
  isOnline : bool
}.

(** [{ ...chat, unreadCount: n }] *)
Definition with_unreadCount (n : nat) (chat : t) : t :=
  mk (id chat) (name chat) (type chat) (avatar chat) (lastMessage chat) n (isOnline chat).

(** [{ ...chat, lastMessage: m }] *)
Definition with_lastMessage (m : Message.t) (chat : t) : t :=
  mk (id chat) (name chat) (type chat) (avatar chat) (Some m)
     (unreadCount chat) (isOnline chat).
End Chat.

#[global] Instance Message_eq_dec : EqDecision Message.t.
Proof. solve_decision. Defined.
#[global] Instance Chat_eq_dec : EqDecision Chat.t.
Proof. solve_decision. Defined.

Definition mockChats : list Chat.t :=
  [ Chat.mk "1" "AI Assistant" ai_chat ":robot:" None 0 true;
    Chat.mk "2" "John Doe" contact_chat ":man-office:" None 2 true;
    Chat.mk "3" "Jane Smith" contact_chat ":woman-tech:" None 0 false ].

Definition responses : list string :=
  [ "That's an interesting question! Let me think about it...";
    "I understand what you're asking. Here's my perspective:";
    "Great point! Based on what you've shared, I'd suggest:";
    "Thanks for sharing that with me. Here's what I think:";
    "I appreciate you bringing this up. My analysis is:";
    "That's a complex topic. Let me break it down for you:" ].

(** The text [getAIResponse] resolves to; [pick] is the drawn index
    [Math.floor(Math.random() * responses.length)]. *)
Definition getAIResponse (pick : nat) (message : string) : string :=
  let randomResponse := default "" (responses !! pick) in
  randomResponse +:+ " " +:+
  (if JS.includes (JS.toLowerCase message) "hello"
   then "Hello there! How can I help you today?"
   else "This is a simulated AI response to demonstrate the chat functionality.").

(** A call of [handleSendMessage] suspended at [await getAIResponse(text)]:
    it closes over the active chat id, the message it built and the text. *)
Record Pending : Set := mkPending {
  pending_chat : string;
  pending_message : Message.t;
  pending_text : string
}.

(** The state cells of [Chat], and the suspended sends. *)
Record State : Type := mkState {
  chats : list Chat.t;
  activeChat : option string;
  messages : gmap string (list Message.t);
  searchQuery : string;
  isTyping : bool;
  isMobile : bool;
  showSidebar : bool;
  pending : list Pending
}.

(** [messages[chatId] || []], for a [chatId] that is not a property name
    of [Object.prototype] ([JS.inherited]).  The ids of the chats are the
    seed ids and [ai-] followed by a clock reading, none of which is such
    a name.  Under such a name, with nothing stored, the source finds the
    inherited member and not a list; that case is outside this model. *)
Definition messagesOf (ms : gmap string (list Message.t)) (chatId : string) : list Message.t :=
  default [] (ms !! chatId).

(** [filteredChats] of [ChatList] *)
Definition filteredChats (cs : list Chat.t) (searchQuery : string) : list Chat.t :=
  List.filter
    (fun chat => JS.includes (JS.toLowerCase (Chat.name chat)) (JS.toLowerCase searchQuery))
    cs.

(** [chats.find(c => c.id === activeChat)] *)
Definition findChat (cs : list Chat.t) (active : option string) : option Chat.t :=
  match active with
  | None => None
  | Some a => List.find (fun chat => String.eqb (Chat.id chat) a) cs
  end.

(** [checkMobile], for the window's inner width. *)
Definition checkMobile (innerWidth : Z) (st : State) : State :=
  mkState (chats st) (activeChat st) (messages st) (searchQuery st) (isTyping st)
    (innerWidth <? 768)%Z (768 <=? innerWidth)%Z (pending st).

Definition setSearchQuery (q : string) (st : State) : State :=
  mkState (chats st) (activeChat st) (messages st) q (isTyping st)
    (isMobile st) (showSidebar st) (pending st).

(** The updater [handleChatSelect] passes to [setMessages]. *)
Definition markMessagesRead (chatId : string) (prev : gmap string (list Message.t))
  : gmap string (list Message.t) :=
  let chatMessages := messagesOf prev chatId in
  let updatedMessages :=
    map (fun msg => if negb (Sender_eqb (Message.sender msg) user)
                    then Message.with_status read msg else msg) chatMessages in
  <[chatId := updatedMessages]> prev.

(** The updater [handleChatSelect] passes to [setChats]. *)
Definition clearUnread (chatId : string) (prev : list Chat.t) : list Chat.t :=
  map (fun chat => if String.eqb (Chat.id chat) chatId
                   then Chat.with_unreadCount 0 chat else chat) prev.

(** [handleChatSelect] *)
Definition handleChatSelect (chatId : string) (st : State) : State :=
  mkState (clearUnread chatId (chats st)) (Some chatId)
    (markMessagesRead chatId (messages st)) (searchQuery st) (isTyping st)
    (isMobile st) (if isMobile st then false else showSidebar st) (pending st).

(** [{ ...chat, lastMessage: m }] for the chat(s) whose id is [chatId]. *)
Definition setLastMessage (chatId : string) (m : Message.t) (cs : list Chat.t) : list Chat.t :=
  map (fun chat => if String.eqb (Chat.id chat) chatId
                   then Chat.with_lastMessage m chat else chat) cs.

(** [handleSendMessage] up to its [await]; [now] is the clock reading. *)
Definition handleSendMessage (text : string) (now : Z) (st : State) : State :=
  if negb (JS.truthy_opt (activeChat st)) then st
  else
    match activeChat st with
    | None => st
    | Some active =>
        let newMessage := Message.mk (JS.toString now) text user (TDate (DateMs now)) sent in
        let messages' :=
          <[active := messagesOf (messages st) active ++ [newMessage]]> (messages st) in
        let chats' := setLastMessage active newMessage (chats st) in
        let suspended :=
          match findChat (chats st) (Some active) with
          | Some chat => ChatType_eqb (Chat.type chat) ai_chat
          | None => false
          end in
        if suspended
        then mkState chats' (activeChat st) messages' (searchQuery st) true
               (isMobile st) (showSidebar st)
               (pending st ++ [mkPending active newMessage text])
        else mkState chats' (activeChat st) messages' (searchQuery st) (isTyping st)
               (isMobile st) (showSidebar st) (pending st)
    end.

(** The rest of [handleSendMessage], run when [getAIResponse] resolves;
    [now] and [pick] are the clock reading and the random draw. *)
Definition resume (p : Pending) (now : Z) (pick : nat) (st : State) : State :=
  let active := pending_chat p in
  let aiResponse := getAIResponse pick (pending_text p) in
  let aiMessage :=
    Message.mk (JS.toString (now + 1)) aiResponse ai (TDate (DateMs now)) delivered in
  mkState (setLastMessage active aiMessage (chats st)) (activeChat st)
    (<[active := messagesOf (messages st) active ++ [pending_message p; aiMessage]]>
       (messages st))
    (searchQuery st) false (isMobile st) (showSidebar st) (pending st).

(** The [i]-th suspended send resumes.  Nothing happens when there is no
    such send. *)
Definition resolveReply (i : nat) (now : Z) (pick : nat) (st : State) : State :=
  match pending st !! i with
  | None => st
  | Some p =>
      resume p now pick
        (mkState (chats st) (activeChat st) (messages st) (searchQuery st)
           (isTyping st) (isMobile st) (showSidebar st) (delete i (pending st)))
  end.

(** [handleSend] of [ChatArea]; [inputText] is the content of the
    composer. *)
Definition handleSend (inputText : string) (now : Z) (st : State) : State :=
  if JS.truthy (JS.trim inputText)
  then handleSendMessage (JS.trim inputText) now st
  else st.

(** [handleNewChat] *)
Definition handleNewChat (now : Z) (st : State) : State :=
  let newChatId := "ai-" +:+ JS.toString now in
  let count :=
    length (List.filter (fun c => ChatType_eqb (Chat.type c) ai_chat) (chats st)) in
  let newChat :=
    Chat.mk newChatId ("AI Assistant " +:+ JS.toString (Z.of_nat count + 1))
      ai_chat ":robot:" None 0 true in
  mkState (newChat :: chats st) (Some newChatId) (messages st) (searchQuery st)
    (isTyping st) (isMobile st) (if isMobile st then false else showSidebar st)
    (pending st).

(** [handleBack] *)
Definition handleBack (st : State) : State :=
  mkState (chats st) (activeChat st) (messages st) (searchQuery st) (isTyping st)
    (isMobile st) (if isMobile st then true else showSidebar st) (pending st).

(** The chat list is rendered unless a mobile window shows the thread;
    the thread is rendered unless a mobile window shows the list. *)
Definition sidebarShown (st : State) : bool := negb (isMobile st) || showSidebar st.
Definition chatAreaShown (st : State) : bool := negb (isMobile st) || negb (showSidebar st).

(** What the user, the window and the suspended sends can do.  A chat
    row exists only for a chat of the filtered list while the list is
    shown; the composer exists only while the thread is shown and the
    active id finds a chat. *)
Inductive step : State -> State -> Prop :=
| step_resize st w :
    step st (checkMobile w st)
| step_search st q :
    sidebarShown st = true -> step st (setSearchQuery q st)
| step_send st inputText now :
    chatAreaShown st = true -> findChat (chats st) (activeChat st) <> None ->
    step st (handleSend inputText now st)
| step_resolve st i now pick :
    i < length (pending st) -> pick < length responses ->
    step st (resolveReply i now pick st)
| step_new st now :
    sidebarShown st = true -> step st (handleNewChat now st)
| step_back st :
    chatAreaShown st = true -> findChat (chats st) (activeChat st) <> None ->
    step st (handleBack st)
| step_click st chat :
    sidebarShown st = true ->
    chat ∈ filteredChats (chats st) (searchQuery st) ->
    step st (handleChatSelect (Chat.id chat) st).

Inductive reachable (s0 : State) : State -> Prop :=
| reach_init : reachable s0 s0
| reach_step s s' : reachable s0 s -> step s s' -> reachable s0 s'.

End ChatRoute.

(** ** Values, exceptions and JSON

    What [JSON.parse] returns is untyped; the values it and the spread
    and [map] expressions of the initialisers produce are modelled as
    they are at run time. *)

#[warnings="-register-all"]
Inductive jsval : Set :=
| VUndef
| VNull
| VBool (b : bool)
| VNum (m e : Z)              (* the number m * 10^e *)
| VStr (s : string)
| VDate (d : Date)
| VArr (l : list jsval)
| VObj (props : list (string * jsval)).

(** What a computation can end in other than a value.  [Unsupported]
    marks inputs the model does not cover (a code unit above 255 in a
    parsed text); it is no behaviour of the program. *)
Inductive error : Set := SyntaxError | TypeError | Unsupported.

Inductive result (A : Type) : Type :=
| Ok (a : A)
| Throw (e : error).
Arguments Ok {A} a.
Arguments Throw {A} e.

#[global] Instance result_bind : MBind result :=
  fun A B (k : A -> result B) (r : result A) =>
    match r with
    | Ok a => k a
    | Throw e => Throw e
    end.

(** [xs.map(f)] where [f] may throw: the first exception propagates. *)
Fixpoint mapM {A B : Type} (f : A -> result B) (xs : list A) : result (list B) :=
  match xs with
  | [] => Ok []
  | x :: xs' => y ← f x; ys ← mapM f xs'; Ok (y :: ys)
  end.

Module Obj.

(** Own property lookup *)
Fixpoint get (props : list (string * jsval)) (k : string) : option jsval :=
  match props with
  | [] => None
  | (k', v) :: rest => if String.eqb k' k then Some v else get rest k
  end.

(** Defining a property: an existing key keeps its place and takes the
    new value, a new key goes last. *)
Fixpoint set (props : list (string * jsval)) (k : string) (v : jsval)
  : list (string * jsval) :=
  match props with
  | [] => [(k, v)]
  | (k', v') :: rest =>
      if String.eqb k' k then (k', v) :: rest else (k', v') :: set rest k v
  end.

End Obj.

(** ** Dates as text

    [Date.prototype.toISOString] and the reading of its output by
    [Date.parse].  Days are converted to and from the proleptic Gregorian
    calendar with the usual era arithmetic (an era is 400 years, 146097
    days, and starts on a first of March). *)

Module JSDate.

Definition msPerDay : Z := 86400000.

(** Time values a [Date] can hold. *)
Definition validTime (t : Z) : Prop :=
  (-8640000000000000 <= t <= 8640000000000000)%Z.

Definition validTimeb (t : Z) : bool :=
  ((-8640000000000000 <=? t) && (t <=? 8640000000000000))%Z.

(** Year, month and day of the day number [z] (days since 1970-01-01). *)
Definition civilFromDays (z : Z) : Z * Z * Z :=
  let z := (z + 719468)%Z in
  let era := (z / 146097)%Z in
  let doe := (z - era * 146097)%Z in
  let yoe := ((doe - doe / 1460 + doe / 36524 - doe / 146096) / 365)%Z in
  let doy := (doe - (365 * yoe + yoe / 4 - yoe / 100))%Z in
  let mp := ((5 * doy + 2) / 153)%Z in
  let d := (doy - (153 * mp + 2) / 5 + 1)%Z in
  let m := (if mp <? 10 then mp + 3 else mp - 9)%Z in
  let y := (yoe + era * 400)%Z in
  ((if m <=? 2 then y + 1 else y)%Z, m, d).

(** The day number of a year, month and day. *)
Definition daysFromCivil (y m d : Z) : Z :=
  let y := (if m <=? 2 then y - 1 else y)%Z in
  let era := (y / 400)%Z in
  let yoe := (y - era * 400)%Z in
  let mp := (if 2 <? m then m - 3 else m + 9)%Z in
  let doy := ((153 * mp + 2) / 5 + d - 1)%Z in
  let doe := (yoe * 365 + yoe / 4 - yoe / 100 + doy)%Z in
  (era * 146097 + doe - 719468)%Z.

Definition digitChar (d : Z) : ascii := ascii_of_N (48 + Z.to_N d).

(** The [width] low decimal digits of [n], most significant first, in
    front of [acc]. *)
Fixpoint pad (width : nat) (n : Z) (acc : string) : string :=
  match width with
  | 0 => acc
  | S w => pad w (n / 10) (String (digitChar (n mod 10)) acc)
  end.

(** [new Date(t).toISOString()] for a valid time value [t]. *)
Definition toISOString (t : Z) : string :=
  let day := (t / msPerDay)%Z in
  let ms := (t mod msPerDay)%Z in
  let '(y, m, d) := civilFromDays day in
  let year :=
    if ((0 <=? y) && (y <=? 9999))%Z then pad 4 y ""
    else (if (y <? 0)%Z then "-" else "+") +:+ pad 6 (Z.abs y) "" in
  year +:+ "-" +:+ pad 2 m "" +:+ "-" +:+ pad 2 d "" +:+ "T"
  +:+ pad 2 (ms / 3600000) "" +:+ ":" +:+ pad 2 (ms / 60000 mod 60) "" +:+ ":"
  +:+ pad 2 (ms / 1000 mod 60) "" +:+ "." +:+ pad 3 (ms mod 1000) "" +:+ "Z".

(** Reads exactly [width] digits. *)
Fixpoint fixedDigits (width : nat) (s : string) (acc : Z) : option (Z * string) :=
  match width with
  | 0 => Some (acc, s)
  | S w =>
      match s with
      | String c r =>
          if JS.isDigit c then fixedDigits w r (10 * acc + JS.digitVal c) else None
      | EmptyString => None
      end
  end.

(** Reads the one character [c]. *)
Definition sep (c : ascii) (s : string) : option string :=
  match s with
  | String c' r => if Ascii.eqb c c' then Some r else None
  | EmptyString => None
  end.

Definition isLeap (y : Z) : bool :=
  ((y mod 4 =? 0) && (negb (y mod 100 =? 0) || (y mod 400 =? 0)))%Z.

Definition daysInMonth (y m : Z) : Z :=
  if (m =? 2)%Z then (if isLeap y then 29 else 28)%Z
  else if ((m =? 4) || (m =? 6) || (m =? 9) || (m =? 11))%Z then 30%Z
  else 31%Z.

(** The year of a date-time text: four digits, or a sign and six digits
    (minus zero excluded). *)
Definition parseYear (s : string) : option (Z * string) :=
  match s with
  | String "+" r => fixedDigits 6 r 0
  | String "-" r =>
      '(y, r') ← fixedDigits 6 r 0;
      if (y =? 0)%Z then None else Some ((- y)%Z, r')
  | _ => fixedDigits 4 s 0
  end.

(** The time value of a text in the format [toISOString] writes:
    year, month, day, [T], hours, minutes, seconds, milliseconds, [Z].
    [None] for any other text. *)
Definition parseISO (s : string) : option Z :=
  '(y, s) ← parseYear s;
  s ← sep "-" s;
  '(m, s) ← fixedDigits 2 s 0;
  s ← sep "-" s;
  '(d, s) ← fixedDigits 2 s 0;
  s ← sep "T" s;
  '(h, s) ← fixedDigits 2 s 0;
  s ← sep ":" s;
  '(mi, s) ← fixedDigits 2 s 0;
  s ← sep ":" s;
  '(sec, s) ← fixedDigits 2 s 0;
  s ← sep "." s;
  '(ms, s) ← fixedDigits 3 s 0;
  s ← sep "Z" s;
  match s with
  | String _ _ => None
  | EmptyString =>
      if ((1 <=? m) && (m <=? 12) && (1 <=? d) && (d <=? daysInMonth y m)
          && ((h <=? 23) && (mi <=? 59) && (sec <=? 59)
              || (h =? 24) && (mi =? 0) && (sec =? 0) && (ms =? 0)))%Z
      then
        let t := (daysFromCivil y m d * msPerDay
                  + h * 3600000 + mi * 60000 + sec * 1000 + ms)%Z in
        if validTimeb t then Some t else None
      else None
  end.

(** [new Date(text)]: the date of a text in the format above.  Other
    texts are not covered: what the host makes of them depends on the
    host. *)
Definition ofString (s : string) : result Date :=
  match parseISO s with
  | Some t => Ok (DateMs t)
  | None => Throw Unsupported
  end.

End JSDate.

Module JSON.

(** The double quote character. *)
Definition dquote : ascii := "034".

Definition isWs (c : ascii) : bool :=
  let n := N_of_ascii c in ((n =? 9) || (n =? 10) || (n =? 13) || (n =? 32))%N.

Fixpoint skipWs (s : string) : string :=
  match s with
  | String c s' => if isWs c then skipWs s' else s
  | EmptyString => EmptyString
  end.

(** Reads the longest run of digits: its value on top of [acc], how many
    digits it has, and the rest. *)
Fixpoint digits (s : string) (acc : Z) (count : nat) : Z * nat * string :=
  match s with
  | String c s' =>
      if JS.isDigit c then digits s' (10 * acc + JS.digitVal c) (S count)
      else (acc, count, s)
  | EmptyString => (acc, count, s)
  end.

Definition hexVal (c : ascii) : option N :=
  let n := N_of_ascii c in
  if ((48 <=? n) && (n <=? 57))%N then Some (n - 48)%N
  else if ((97 <=? n) && (n <=? 102))%N then Some (n - 87)%N
  else if ((65 <=? n) && (n <=? 70))%N then Some (n - 55)%N
  else None.

(** The number grammar: an optional minus sign; a zero, or a non-zero
    digit and further digits; optionally a point and one or more digits;
    optionally an exponent mark, a sign and one or more digits.

    [parseExponent] reads what may follow the mantissa [m], which has
    [k] digits after the point. *)
Definition parseExponent (m : Z) (k : nat) (s : string) : result (jsval * string) :=
  match s with
  | String x r =>
      if Ascii.eqb x "e" || Ascii.eqb x "E" then
        let '(eneg, r1) :=
          match r with
          | String "-" r' => (true, r')
          | String "+" r' => (false, r')
          | _ => (false, r)
          end in
        let '(ev, ek, r2) := digits r1 0 0 in
        if Nat.eqb ek 0 then Throw SyntaxError
        else Ok (VNum m ((if eneg then - ev else ev) - Z.of_nat k), r2)
      else Ok (VNum m (- Z.of_nat k), s)
  | EmptyString => Ok (VNum m (- Z.of_nat k), s)
  end.

(** [parseFraction] reads what may follow the integer part [int]. *)
Definition parseFraction (neg : bool) (int : Z) (s : string) : result (jsval * string) :=
  match s with
  | String "." r =>
      let '(mant, k, r1) := digits r int 0 in
      if Nat.eqb k 0 then Throw SyntaxError
      else parseExponent (if neg then (- mant)%Z else mant) k r1
  | _ => parseExponent (if neg then (- int)%Z else int) 0 s
  end.

Definition parseNumber (s : string) : result (jsval * string) :=
  let '(neg, s1) :=
    match s with
    | String "-" r => (true, r)
    | _ => (false, s)
    end in
  match s1 with
  | String c r1 =>
      if JS.isDigit c then
        let '(int, _, s2) :=
          if Ascii.eqb c "0" then (0%Z, 1, r1) else digits s1 0 0 in
        parseFraction neg int s2
      else Throw SyntaxError
  | EmptyString => Throw SyntaxError
  end.

(** The characters of a string literal after its opening quote, up to
    and including the closing quote. *)
Fixpoint parseChars (s : string) : result (string * string) :=
  match s with
  | EmptyString => Throw SyntaxError
  | String c r =>
      if Ascii.eqb c dquote then Ok (EmptyString, r)
      else if Ascii.eqb c "\" then
        match r with
        | String e r' =>
            let simple (x : ascii) :=
              '(t, rest) ← parseChars r'; Ok (String x t, rest) in
            if Ascii.eqb e dquote then simple dquote
            else if Ascii.eqb e "\" then simple "\"%char
            else if Ascii.eqb e "/" then simple "/"%char
            else if Ascii.eqb e "b" then simple (ascii_of_nat 8)
            else if Ascii.eqb e "f" then simple (ascii_of_nat 12)
            else if Ascii.eqb e "n" then simple (ascii_of_nat 10)
            else if Ascii.eqb e "r" then simple (ascii_of_nat 13)
            else if Ascii.eqb e "t" then simple (ascii_of_nat 9)
            else if Ascii.eqb e "u" then
              match r' with
              | String h1 (String h2 (String h3 (String h4 r''))) =>
                  match hexVal h1, hexVal h2, hexVal h3, hexVal h4 with
                  | Some a, Some b, Some c', Some d =>
                      '(t, rest) ← parseChars r'';
                      if ((a =? 0) && (b =? 0))%N
                      then Ok (String (ascii_of_N (16 * c' + d)) t, rest)
                      else Throw Unsupported
                  | _, _, _, _ => Throw SyntaxError
                  end
              | _ => Throw SyntaxError
              end
            else Throw SyntaxError
        | EmptyString => Throw SyntaxError
        end
      else if (N_of_ascii c <? 32)%N then Throw SyntaxError
      else '(t, rest) ← parseChars r; Ok (String c t, rest)
  end.

(** Expects the literal [lit] at the head of [s]. *)
Definition expect (lit : string) (v : jsval) (s : string) : result (jsval * string) :=
  if String.prefix lit s
  then Ok (v, String.substring (String.length lit) (String.length s - String.length lit) s)
  else Throw SyntaxError.

(** One value, with the white space before it.  [fuel] bounds the
    nesting and the number of elements; a value, an element list or a
    member list of [n] characters needs at most [2 * n + 1], which is
    what [parse] supplies. *)
Fixpoint parseValue (fuel : nat) (s : string) : result (jsval * string) :=
  match fuel with
  | 0 => Throw Unsupported
  | S fuel' =>
      match skipWs s with
      | EmptyString => Throw SyntaxError
      | String c r =>
          if Ascii.eqb c "n" then expect "null" VNull (String c r)
          else if Ascii.eqb c "t" then expect "true" (VBool true) (String c r)
          else if Ascii.eqb c "f" then expect "false" (VBool false) (String c r)
          else if Ascii.eqb c dquote then
            '(t, rest) ← parseChars r; Ok (VStr t, rest)
          else if Ascii.eqb c "[" then
            match skipWs r with
            | String "]" rest => Ok (VArr [], rest)
            | _ => '(l, rest) ← parseElements fuel' r; Ok (VArr l, rest)
            end
          else if Ascii.eqb c "{" then
            match skipWs r with
            | String "}" rest => Ok (VObj [], rest)
            | _ => '(ps, rest) ← parseMembers fuel' r []; Ok (VObj ps, rest)
            end
          else parseNumber (String c r)
      end
  end

with parseElements (fuel : nat) (s : string) : result (list jsval * string) :=
  match fuel with
  | 0 => Throw Unsupported
  | S fuel' =>
      '(v, r) ← parseValue fuel' s;
      match skipWs r with
      | String "," r' => '(l, rest) ← parseElements fuel' r'; Ok (v :: l, rest)
      | String "]" rest => Ok ([v], rest)
      | _ => Throw SyntaxError
      end
  end

with parseMembers (fuel : nat) (s : string) (acc : list (string * jsval))
  : result (list (string * jsval) * string) :=
  match fuel with
  | 0 => Throw Unsupported
  | S fuel' =>
      match skipWs s with
      | String "034" r =>
          '(k, r1) ← parseChars r;
          match skipWs r1 with
          | String ":" r2 =>
              '(v, r3) ← parseValue fuel' r2;
              let acc' := Obj.set acc k v in
              match skipWs r3 with
              | String "," r4 => parseMembers fuel' r4 acc'
              | String "}" rest => Ok (acc', rest)
              | _ => Throw SyntaxError
              end
          | _ => Throw SyntaxError
          end
      | _ => Throw SyntaxError
      end
  end.

(** [JSON.parse(text)] *)
Definition parse (text : string) : result jsval :=
  '(v, rest) ← parseValue (2 * String.length text + 1) text;
  match skipWs rest with
  | EmptyString => Ok v
  | String _ _ => Throw SyntaxError
  end.

Definition hexDigit (n : N) : ascii :=
  if (n <? 10)%N then ascii_of_N (48 + n) else ascii_of_N (87 + n).

(** How [JSON.stringify] writes one character of a string. *)
Definition escapeChar (c : ascii) : string :=
  let n := N_of_ascii c in
  if Ascii.eqb c dquote then String "\" (String dquote "")
  else if Ascii.eqb c "\" then "\\"
  else if (n =? 8)%N then "\b"
  else if (n =? 9)%N then "\t"
  else if (n =? 10)%N then "\n"
  else if (n =? 12)%N then "\f"
  else if (n =? 13)%N then "\r"
  else if (n <? 32)%N
    then "\u00" +:+ String (hexDigit (n / 16)) (String (hexDigit (n mod 16)) "")
  else String c "".

Fixpoint quoteChars (s : string) : string :=
  match s with
  | EmptyString => EmptyString
  | String c r => escapeChar c +:+ quoteChars r
  end.

Definition quote (s : string) : string :=
  String dquote (quoteChars s +:+ String dquote "").

Fixpoint join (l : list string) : string :=
  match l with
  | [] => ""
  | [x] => x
  | x :: r => x +:+ "," +:+ join r
  end.

(** The text of a number: an integer in decimal; a number with a
    non-zero exponent as mantissa, [e] and exponent (the host writes the
    same number with a decimal point). *)
Definition number (m e : Z) : string :=
  if (e =? 0)%Z then pretty m else pretty m +:+ "e" +:+ pretty e.

(** The text of a value inside an array or as a property value.  A date
    is written through its [toJSON]; [undefined] in an array is written
    as [null]; a property holding [undefined] is left out. *)
Fixpoint serialize (v : jsval) : string :=
  match v with
  | VUndef => "null"
  | VNull => "null"
  | VBool true => "true"
  | VBool false => "false"
  | VNum m e => number m e
  | VStr s => quote s
  | VDate (DateMs t) => quote (JSDate.toISOString t)
  | VDate InvalidDate => "null"
  | VArr l => "[" +:+ join (map serialize l) +:+ "]"
  | VObj props =>
      "{" +:+
      join ((fix members (ps : list (string * jsval)) : list string :=
               match ps with
               | [] => []
               | (k, VUndef) :: r => members r
               | (k, x) :: r => (quote k +:+ ":" +:+ serialize x) :: members r
               end) props)
      +:+ "}"
  end.

(** [JSON.stringify(v)]; [None] is [undefined]. *)
Definition stringify (v : jsval) : option string :=
  match v with
  | VUndef => None
  | _ => Some (serialize v)
  end.

End JSON.

(** ** The store

    [localStorage] maps keys to texts.  [setItem] stores the text form of
    its argument. *)

Module LocalStorage.

Definition getItem (k : string) (store : gmap string string) : option string :=
  store !! k.

Definition setItem (k : string) (v : option string) (store : gmap string string)
  : gmap string string :=
  <[k := default "undefined" v]> store.

End LocalStorage.

(** Property access and the expressions the initialisers apply to
    parsed values. *)

Module Dyn.

(** [v.k], for a key [k] that no prototype defines: reading from
    [undefined] or [null] throws, a missing property is [undefined]. *)
Definition getProp (v : jsval) (k : string) : result jsval :=
  match v with
  | VUndef | VNull => Throw TypeError
  | VObj props => Ok (default VUndef (Obj.get props k))
  | _ => Ok VUndef
  end.

Fixpoint indexed (i : nat) (l : list jsval) : list (string * jsval) :=
  match l with
  | [] => []
  | x :: r => (pretty i, x) :: indexed (S i) r
  end.

Fixpoint chars (i : nat) (s : string) : list (string * jsval) :=
  match s with
  | EmptyString => []
  | String c r => (pretty i, VStr (String c "")) :: chars (S i) r
  end.

(** The own enumerable properties [{ ...v }] copies. *)
Definition spread (v : jsval) : list (string * jsval) :=
  match v with
  | VObj props => props
  | VArr l => indexed 0 l
  | VStr s => chars 0 s
  | _ => []
  end.

(** [v.map(f)]: only an array has a [map] to call. *)
Definition map (f : jsval -> result jsval) (v : jsval) : result jsval :=
  match v with
  | VArr l => l' ← mapM f l; Ok (VArr l')
  | _ => Throw TypeError
  end.

(** [new Date(v)].  An array argument is not covered (its text form
    depends on its elements). *)
Definition newDate (v : jsval) : result Date :=
  match v with
  | VUndef => Ok InvalidDate
  | VNull => Ok (DateMs 0)
  | VBool b => Ok (DateMs (if b then 1 else 0))
  | VNum m e =>
      if (0 <=? e)%Z
      then let t := (m * 10 ^ e)%Z in
           Ok (if JSDate.validTimeb t then DateMs t else InvalidDate)
      else let t := Z.quot m (10 ^ (- e)) in
           Ok (if JSDate.validTimeb t then DateMs t else InvalidDate)
  | VStr s => JSDate.ofString s
  | VDate d => Ok d
  | VArr _ => Throw Unsupported
  | VObj _ => Ok InvalidDate
  end.

End Dyn.

(** Readers shared by the typed views below: the value of a property
    when it has the expected kind. *)

Module Field.

Definition str (props : list (string * jsval)) (k : string) : option string :=
  match Obj.get props k with
  | Some (VStr s) => Some s
  | _ => None
  end.

Definition bool (props : list (string * jsval)) (k : string) : option Datatypes.bool :=
  match Obj.get props k with
  | Some (VBool b) => Some b
  | _ => None
  end.

(** A count: a number written without exponent that is not negative. *)
Definition count (props : list (string * jsval)) (k : string) : option nat :=
  match Obj.get props k with
  | Some (VNum m 0) => if (0 <=? m)%Z then Some (Z.to_nat m) else None
  | _ => None
  end.

Definition timestamp (props : list (string * jsval)) (k : string) : option Timestamp :=
  match Obj.get props k with
  | Some (VDate d) => Some (TDate d)
  | Some (VStr s) => Some (TString s)
  | _ => None
  end.

Definition sender (props : list (string * jsval)) (k : string) : option Sender :=
  s ← str props k;
  if String.eqb s "user" then Some user
  else if String.eqb s "ai" then Some ai
  else if String.eqb s "contact" then Some contact
  else None.

Definition chatType (props : list (string * jsval)) (k : string) : option ChatType :=
  s ← str props k;
  if String.eqb s "ai" then Some ai_chat
  else if String.eqb s "contact" then Some contact_chat
  else None.

Definition ofSender (s : Sender) : jsval :=
  VStr (match s with user => "user" | ai => "ai" | contact => "contact" end).

Definition ofChatType (t : ChatType) : jsval :=
  VStr (match t with ai_chat => "ai" | contact_chat => "contact" end).

Definition ofTimestamp (ts : Timestamp) : jsval :=
  match ts with
  | TDate d => VDate d
  | TString s => VStr s
  end.

(** [xs.map(f)] for a partial reading [f]. *)
Fixpoint all {A B : Type} (f : A -> option B) (xs : list A) : option (list B) :=
  match xs with
  | [] => Some []
  | x :: r => y ← f x; ys ← all f r; Some (y :: ys)
  end.

End Field.

(** ** Persistence of [ChatApp] *)

Module ChatAppStore.
Import ChatApp.

Definition STORAGE_KEY : string := "telegram-clone-chats".

(** A message and a chat as the objects they are; the properties stand
    in the order of the object literals that create them. *)
Definition ofMessage (m : Message.t) : jsval :=
  VObj [ ("id", VStr (Message.id m));
         ("text", VStr (Message.text m));
         ("timestamp", Field.ofTimestamp (Message.timestamp m));
         ("sender", Field.ofSender (Message.sender m));
         ("isRead", VBool (Message.isRead m)) ].

Definition ofChat (c : Chat.t) : jsval :=
  VObj [ ("id", VStr (Chat.id c));
         ("name", VStr (Chat.name c));
         ("type", Field.ofChatType (Chat.type c));
         ("avatar", VStr (Chat.avatar c));
         ("isOnline", VBool (Chat.isOnline c));
         ("unreadCount", VNum (Z.of_nat (Chat.unreadCount c)) 0);
         ("messages", VArr (List.map ofMessage (Chat.messages c)));
         ("lastMessage", match Chat.lastMessage c with
                         | Some m => ofMessage m
                         | None => VUndef
                         end) ].

Definition ofChats (cs : list Chat.t) : jsval := VArr (List.map ofChat cs).

(** The typed reading of a value: [Some] when it has the shape of the
    interface. *)
Definition toMessage (v : jsval) : option Message.t :=
  match v with
  | VObj props =>
      i ← Field.str props "id";
      t ← Field.str props "text";
      ts ← Field.timestamp props "timestamp";
      s ← Field.sender props "sender";
      r ← Field.bool props "isRead";
      Some (Message.mk i t ts s r)
  | _ => None
  end.

Definition toLastMessage (props : list (string * jsval)) : option (option Message.t) :=
  match Obj.get props "lastMessage" with
  | None | Some VUndef => Some None
  | Some v => m ← toMessage v; Some (Some m)
  end.

Definition toChat (v : jsval) : option Chat.t :=
  match v with
  | VObj props =>
      i ← Field.str props "id";
      n ← Field.str props "name";
      ty ← Field.chatType props "type";
      a ← Field.str props "avatar";
      lm ← toLastMessage props;
      ms ← match Obj.get props "messages" with
           | Some (VArr l) => Field.all toMessage l
           | _ => None
           end;
      o ← Field.bool props "isOnline";
      u ← Field.count props "unreadCount";
      Some (Chat.mk i n ty a lm ms o u)
  | _ => None
  end.

Definition toChats (v : jsval) : option (list Chat.t) :=
  match v with
  | VArr l => Field.all toChat l
  | _ => None
  end.

(** The save effect: [localStorage.setItem(key, JSON.stringify(chats))]. *)
Definition save (cs : list Chat.t) (store : gmap string string) : gmap string string :=
  LocalStorage.setItem STORAGE_KEY (JSON.stringify (ofChats cs)) store.

(** [{ ...msg, timestamp: new Date(msg.timestamp) }] *)
Definition reviveMessage (msg : jsval) : result jsval :=
  let copy := Dyn.spread msg in
  ts ← Dyn.getProp msg "timestamp";
  d ← Dyn.newDate ts;
  Ok (VObj (Obj.set copy "timestamp" (VDate d))).

(** [{ ...chat, messages: chat.messages.map(...) }] *)
Definition reviveChat (chat : jsval) : result jsval :=
  let copy := Dyn.spread chat in
  ms ← Dyn.getProp chat "messages";
  ms' ← Dyn.map reviveMessage ms;
  Ok (VObj (Obj.set copy "messages" ms')).

(** The initialiser of the [chats] cell, run in a browser ([window] is
    defined); [now] is the clock reading of the seed data. *)
Definition initialChats (now : Z) (store : gmap string string) : result jsval :=
  match LocalStorage.getItem STORAGE_KEY store with
  | Some saved =>
      if JS.truthy saved
      then parsed ← JSON.parse saved; Dyn.map reviveChat parsed
      else Ok (ofChats (mockChats now))
  | None => Ok (ofChats (mockChats now))
  end.

End ChatAppStore.

(** ** Persistence of [ChatRoute] *)

Module ChatRouteStore.
Import ChatRoute.

Definition STORAGE_KEY : string := "ai-chat-messages".

Definition ofStatus (s : Status) : jsval :=
  VStr (match s with sent => "sent" | delivered => "delivered" | read => "read" end).

Definition toStatus (props : list (string * jsval)) (k : string) : option Status :=
  s ← Field.str props k;
  if String.eqb s "sent" then Some sent
  else if String.eqb s "delivered" then Some delivered
  else if String.eqb s "read" then Some read
  else None.

Definition ofMessage (m : Message.t) : jsval :=
  VObj [ ("id", VStr (Message.id m));
         ("text", VStr (Message.text m));
         ("sender", Field.ofSender (Message.sender m));
         ("timestamp", Field.ofTimestamp (Message.timestamp m));
         ("status", ofStatus (Message.status m)) ].

(** The record of messages as an object.  The order in which the host
    lists the keys is not modelled: they stand in the order of
    [map_to_list]. *)
Definition ofMessages (ms : gmap string (list Message.t)) : jsval :=
  VObj (List.map (fun kv => (kv.1, VArr (List.map ofMessage kv.2))) (map_to_list ms)).

Definition toMessage (v : jsval) : option Message.t :=
  match v with
  | VObj props =>
      i ← Field.str props "id";
      t ← Field.str props "text";
      s ← Field.sender props "sender";
      ts ← Field.timestamp props "timestamp";
      st ← toStatus props "status";
      Some (Message.mk i t s ts st)
  | _ => None
  end.

Definition toEntry (kv : string * jsval) : option (string * list Message.t) :=
  match kv.2 with
  | VArr l => ms ← Field.all toMessage l; Some (kv.1, ms)
  | _ => None
  end.

(** The typed reading of a value as [Record<string, Message[]>]. *)
Definition toMessages (v : jsval) : option (gmap string (list Message.t)) :=
  match v with
  | VObj props => es ← Field.all toEntry props; Some (list_to_map es)
  | _ => None
  end.

(** [saveMessages]; [accepted] tells whether the store takes the write
    (it throws when its quota is exceeded, which is caught and logged). *)
Definition saveMessages (ms : gmap string (list Message.t)) (accepted : bool)
    (store : gmap string string) : gmap string string :=
  if accepted
  then LocalStorage.setItem STORAGE_KEY (JSON.stringify (ofMessages ms)) store
  else store.

(** [loadMessages]: what [JSON.parse] throws is caught and replaced by
    the empty record. *)
Definition loadMessages (store : gmap string string) : result jsval :=
  match LocalStorage.getItem STORAGE_KEY store with
  | Some stored =>
      if JS.truthy stored
      then match JSON.parse stored with
           | Ok v => Ok v
           | Throw Unsupported => Throw Unsupported
           | Throw _ => Ok (VObj [])
           end
      else Ok (VObj [])
  | None => Ok (VObj [])
  end.

End ChatRouteStore.

(** ** Vocabulary of the statements *)

(** A text is blank when it is empty or holds white space only. *)
Definition blank (s : string) : Prop :=
  Forall (fun c => JS.isWhiteSpace c = true) (list_ascii_of_string s).

(** A text starts clean when it is empty or its first character is no
    white space. *)
Definition startsClean (s : string) : Prop :=
  match s with
  | EmptyString => True
  | String c _ => JS.isWhiteSpace c = false
  end.

(** [t] occurs in [s] as a run of consecutive characters. *)
Definition occursIn (t s : string) : Prop :=
  exists pre post, s = pre +:+ t +:+ post.

(** Two texts are equal up to the case of their letters. *)
Definition sameIgnoringCase (s t : string) : Prop :=
  JS.toLowerCase s = JS.toLowerCase t.

(** [name] contains [q] case-insensitively: a run of consecutive
    characters of [name] equals [q] up to case. *)
Definition containsIgnoringCase (name q : string) : Prop :=
  exists u, occursIn u name /\ sameIgnoringCase u q.

(** [l'] keeps exactly the elements of [l] that satisfy [P], in their
    order: it is a sublist of [l] whose elements satisfy [P], and every
    sublist of [l] with that property is a sublist of it. *)
Definition selects {A : Type} (P : A -> Prop) (l l' : list A) : Prop :=
  sublist l' l /\ Forall P l' /\
  forall k, sublist k l -> Forall P k -> sublist k l'.

(** The chat ids of a chat list. *)
Definition appIds (cs : list ChatApp.Chat.t) : list string := List.map ChatApp.Chat.id cs.
Definition routeIds (cs : list ChatRoute.Chat.t) : list string := List.map ChatRoute.Chat.id cs.

(** The active chat id, when there is one, is the id of a chat. *)
Definition appActiveValid (st : ChatApp.State) : Prop :=
  match ChatApp.activeChat st with
  | None => True
  | Some a => a ∈ appIds (ChatApp.chats st)
  end.

Definition routeActiveValid (st : ChatRoute.State) : Prop :=
  match ChatRoute.activeChat st with
  | None => True
  | Some a => a ∈ routeIds (ChatRoute.chats st)
  end.

(** Two messages agree on everything but the read marker. *)
Definition sameButRead (m m' : ChatApp.Message.t) : Prop :=
  ChatApp.Message.id m' = ChatApp.Message.id m /\
  ChatApp.Message.text m' = ChatApp.Message.text m /\
  ChatApp.Message.timestamp m' = ChatApp.Message.timestamp m /\
  ChatApp.Message.sender m' = ChatApp.Message.sender m.

Definition sameButStatus (m m' : ChatRoute.Message.t) : Prop :=
  ChatRoute.Message.id m' = ChatRoute.Message.id m /\
  ChatRoute.Message.text m' = ChatRoute.Message.text m /\
  ChatRoute.Message.timestamp m' = ChatRoute.Message.timestamp m /\
  ChatRoute.Message.sender m' = ChatRoute.Message.sender m.

(** Two chats agree on everything but the unread count and the read
    markers of their messages, which are as many and in the same order. *)
Definition sameButReadState (c c' : ChatApp.Chat.t) : Prop :=
  ChatApp.Chat.id c' = ChatApp.Chat.id c /\
  ChatApp.Chat.name c' = ChatApp.Chat.name c /\
  ChatApp.Chat.type c' = ChatApp.Chat.type c /\
  ChatApp.Chat.avatar c' = ChatApp.Chat.avatar c /\
  ChatApp.Chat.lastMessage c' = ChatApp.Chat.lastMessage c /\
  ChatApp.Chat.isOnline c' = ChatApp.Chat.isOnline c /\
  Forall2 sameButRead (ChatApp.Chat.messages c) (ChatApp.Chat.messages c').

Definition sameButUnread (c c' : ChatRoute.Chat.t) : Prop :=
  ChatRoute.Chat.id c' = ChatRoute.Chat.id c /\
  ChatRoute.Chat.name c' = ChatRoute.Chat.name c /\
  ChatRoute.Chat.type c' = ChatRoute.Chat.type c /\
  ChatRoute.Chat.avatar c' = ChatRoute.Chat.avatar c /\
  ChatRoute.Chat.lastMessage c' = ChatRoute.Chat.lastMessage c /\
  ChatRoute.Chat.isOnline c' = ChatRoute.Chat.isOnline c.

(** Position by position, a chat of [cs'] has the id of the chat of [cs]
    and an unread count that is not above it. *)
Definition countsBelow (cs cs' : list ChatApp.Chat.t) : Prop :=
  Forall2 (fun c c' =>
             ChatApp.Chat.id c' = ChatApp.Chat.id c /\
             ChatApp.Chat.unreadCount c' <= ChatApp.Chat.unreadCount c) cs cs'.

(** [cs] is [cs0] with counts not above the counts of [cs0], behind chats
    created since, whose count is zero. *)
Definition countsNotAbove (cs0 cs : list ChatApp.Chat.t) : Prop :=
  exists created kept,
    cs = created ++ kept /\
    Forall (fun c => ChatApp.Chat.unreadCount c = 0) created /\
    countsBelow cs0 kept.

(** Exactly one chat of [cs], the one with id [a], has grown by the
    messages [new] at the end of its history; nothing else differs
    between [cs] and [cs']. *)
Definition onlyChatGrows (a : string) (new : list ChatApp.Message.t)
    (cs cs' : list ChatApp.Chat.t) : Prop :=
  exists pre c post,
    cs = pre ++ c :: post /\
    ChatApp.Chat.id c = a /\
    cs' = pre ++ ChatApp.Chat.with_messages (ChatApp.Chat.messages c ++ new) c :: post.

(** The history of the first chat with id [a]. *)
Definition appHistory (a : string) (cs : list ChatApp.Chat.t)
  : option (list ChatApp.Message.t) :=
  ChatApp.Chat.messages <$> List.find (fun c => String.eqb (ChatApp.Chat.id c) a) cs.

(** [c'] is [c] with its history extended: the messages of [c] are all
    there, in order and unchanged but for their read marker, followed by
    the messages that arrived since. *)
Definition historyExtended (c c' : ChatApp.Chat.t) : Prop :=
  ChatApp.Chat.id c' = ChatApp.Chat.id c /\
  exists kept arrived,
    ChatApp.Chat.messages c' = kept ++ arrived /\
    Forall2 sameButRead (ChatApp.Chat.messages c) kept.

(** [cs] is [cs0] with every history extended, behind the chats created
    since. *)
Definition nothingLost (cs0 cs : list ChatApp.Chat.t) : Prop :=
  exists created kept, cs = created ++ kept /\ Forall2 historyExtended cs0 kept.

(** Every message the user sent has a text that is not blank. *)
Definition appUserTextsNotBlank (cs : list ChatApp.Chat.t) : Prop :=
  Forall (fun c =>
            Forall (fun m => ChatApp.Message.sender m = user ->
                             ~ blank (ChatApp.Message.text m))
              (ChatApp.Chat.messages c)) cs.

#[global] Instance blank_dec (s : string) : Decision (blank s).
Proof. unfold blank. apply _. Defined.

(** ** States used as examples *)

Module Ex.

(** [ChatApp] mounted on the seed data. *)
Definition app0 : ChatApp.State := ChatApp.mounted (ChatApp.mockChats 1700000000000).

(** The first chat is opened and [hi] is typed. *)
Definition appTyped : ChatApp.State :=
  ChatApp.setNewMessage "hi" (ChatApp.selectChat "1" app0).

(** The first chat of a state (a chat with empty fields when there is
    none). *)
Definition appFirst (st : ChatApp.State) : ChatApp.Chat.t :=
  List.hd (ChatApp.Chat.mk "" "" ai_chat "" None [] false 0) (ChatApp.chats st).

(** The first chat is opened and three spaces are typed. *)
Definition appBlank : ChatApp.State :=
  ChatApp.setNewMessage "   " (ChatApp.selectChat "1" app0).

(** The first chat is opened, [hi] is typed and sent. *)
Definition appSent : ChatApp.State := ChatApp.sendMessage 1700000001000 appTyped.

(** The third chat is opened while the reply is pending. *)
Definition appSwitched : ChatApp.State := ChatApp.selectChat "3" appSent.

(** The reply has arrived. *)
Definition appReplied : ChatApp.State := ChatApp.fireTimer 0 1700000003000 2 appSwitched.

(** [Chat] of the route on the seed data, with no stored messages, in a
    wide window. *)
Definition route0 : ChatRoute.State :=
  ChatRoute.mkState ChatRoute.mockChats None ∅ "" false false true [].

(** The first chat is opened. *)
Definition routeOpen : ChatRoute.State := ChatRoute.handleChatSelect "1" route0.

(** [Hello] is sent in it. *)
Definition routeSent : ChatRoute.State :=
  ChatRoute.handleSend "Hello" 1700000001000 routeOpen.

(** The reply to it has arrived. *)
Definition routeReplied : ChatRoute.State :=
  ChatRoute.resolveReply 0 1700000003000 2 routeSent.

(** A message the user sent in the second chat. *)
Definition userMessage : ChatRoute.Message.t :=
  ChatRoute.Message.mk "1700000000000" "Hello" user (TDate (DateMs 1700000000000))
    ChatRoute.sent.

Definition routeWithUserMessage : ChatRoute.State :=
  ChatRoute.mkState ChatRoute.mockChats None {[ "2" := [userMessage] ]}
    "" false false true [].

(** A chat is created, [Hello] is sent in it and the reply has arrived. *)
Definition routeCreated : ChatRoute.State :=
  ChatRoute.resolveReply 0 1700000003000 2
    (ChatRoute.handleSend "Hello" 1700000001000
       (ChatRoute.handleNewChat 1700000000500 route0)).

(** The page is loaded again on what that session stored.  The chats are
    not stored: they are the seed chats again, while the messages are
    what [loadMessages] returns, among them those of the created chat. *)
Definition routeReloaded : ChatRoute.State :=
  let store := ChatRouteStore.saveMessages (ChatRoute.messages routeCreated) true ∅ in
  let loaded :=
    match ChatRouteStore.loadMessages store with
    | Ok v => default ∅ (ChatRouteStore.toMessages v)
    | Throw _ => ∅
    end in
  ChatRoute.mkState ChatRoute.mockChats None loaded "" false false true [].

End Ex.

(** ** Strings *)

Section Strings.

#[local] Arguments String.append !s1 s2 : simpl nomatch.

Lemma append_nil_r (s : string) : s +:+ "" = s.
Proof. induction s as [|c s IH]; simpl; [reflexivity | now rewrite IH]. Qed.

Lemma append_assoc (s t u : string) : (s +:+ t) +:+ u = s +:+ (t +:+ u).
Proof. induction s as [|c s IH]; simpl; [reflexivity | now rewrite IH]. Qed.

Lemma prefix_spec (t s : string) :
  String.prefix t s = true <-> exists post, s = t +:+ post.
Proof.
  revert s. induction t as [|c t IH]; intros s.
  - split; [intros _; now exists s | intros _; now destruct s].
  - destruct s as [|d s].
    + split; [discriminate | intros [post H]; discriminate].
    + change (String.prefix (String c t) (String d s))
        with (if ascii_dec c d then String.prefix t s else false).
      destruct (ascii_dec c d) as [->|Hne].
      * rewrite IH. split; intros [post H]; exists post.
        -- simpl. now rewrite H.
        -- simpl in H. now injection H.
      * split; [discriminate | intros [post H]; simpl in H; injection H; congruence].
Qed.

Lemma includes_unfold (s t : string) :
  JS.includes s t =
  if String.prefix t s then true
  else match s with
       | EmptyString => false
       | String _ s' => JS.includes s' t
       end.
Proof. destruct s; reflexivity. Qed.

Lemma includes_spec (s t : string) :
  JS.includes s t = true <-> occursIn t s.
Proof.
  unfold occursIn. induction s as [|c s IH]; rewrite includes_unfold.
  - destruct (String.prefix t "") eqn:E.
    + split; [intros _ | reflexivity].
      apply prefix_spec in E as [post E]. now exists "", post.
    + split; [discriminate |].
      intros [pre [post H]]. destruct pre; [|discriminate]. simpl in H.
      assert (String.prefix t "" = true) by (apply prefix_spec; eauto).
      congruence.
  - destruct (String.prefix t (String c s)) eqn:E.
    + split; [intros _ | reflexivity].
      apply prefix_spec in E as [post E]. now exists "", post.
    + rewrite IH. split.
      * intros [pre [post H]]. exists (String c pre), post. simpl. now rewrite H.
      * intros [pre [post H]]. destruct pre as [|d pre]; simpl in H.
        -- assert (String.prefix t (String c s) = true) by (apply prefix_spec; eauto).
           congruence.
        -- injection H as _ H. eauto.
Qed.

Lemma includes_empty (s : string) : JS.includes s "" = true.
Proof. apply includes_spec. exists "", s. reflexivity. Qed.

Lemma toLowerCase_append (s t : string) :
  JS.toLowerCase (s +:+ t) = JS.toLowerCase s +:+ JS.toLowerCase t.
Proof. induction s as [|c s IH]; simpl; [reflexivity | now rewrite IH]. Qed.

Lemma toLowerCase_length (s : string) :
  String.length (JS.toLowerCase s) = String.length s.
Proof. induction s as [|c s IH]; simpl; [reflexivity | now rewrite IH]. Qed.

(** Splitting a lower-cased text splits the text it comes from. *)
Lemma toLowerCase_split (s a b : string) :
  JS.toLowerCase s = a +:+ b ->
  exists s1 s2, s = s1 +:+ s2 /\ JS.toLowerCase s1 = a /\ JS.toLowerCase s2 = b.
Proof.
  revert a. induction s as [|c s IH]; intros a H; simpl in H.
  - destruct a; [|discriminate]. simpl in H. subst b. now exists "", "".
  - destruct a as [|d a]; simpl in H.
    + exists "", (String c s). subst b. simpl. auto.
    + injection H as Hd H. apply IH in H as (s1 & s2 & -> & H1 & H2).
      exists (String c s1), s2. simpl. rewrite Hd, H1. auto.
Qed.

(** The test of the search filter decides containment up to case. *)
Lemma includes_lower_spec (name q : string) :
  JS.includes (JS.toLowerCase name) (JS.toLowerCase q) = true
  <-> containsIgnoringCase name q.
Proof.
  rewrite includes_spec. unfold containsIgnoringCase, occursIn, sameIgnoringCase.
  split.
  - intros (pre & post & H).
    apply toLowerCase_split in H as (s1 & s2 & -> & H1 & H2).
    apply toLowerCase_split in H2 as (u & s3 & -> & H2 & H3).
    exists u. split; [now exists s1, s3 | exact H2].
  - intros (u & (pre & post & ->) & Hu).
    exists (JS.toLowerCase pre), (JS.toLowerCase post).
    now rewrite !toLowerCase_append, Hu.
Qed.

Lemma trimStart_blank (s : string) : blank s -> JS.trimStart s = "".
Proof.
  unfold blank. induction s as [|c s IH]; simpl; intros H; [reflexivity|].
  inversion H as [|? ? Hc Hs]; subst. rewrite Hc. auto.
Qed.

Lemma trim_blank (s : string) : blank s -> JS.trim s = "".
Proof. intros H. unfold JS.trim. now rewrite trimStart_blank. Qed.

Lemma trimEnd_empty_blank (s : string) : JS.trimEnd s = "" -> blank s.
Proof.
  unfold blank. induction s as [|c s IH]; simpl; intros H; [constructor|].
  destruct (JS.trimEnd s) eqn:E; [|discriminate].
  destruct (JS.isWhiteSpace c) eqn:Hc; [|discriminate].
  constructor; auto.
Qed.

Lemma trimStart_suffix (s : string) :
  exists pre, s = pre +:+ JS.trimStart s /\ blank pre.
Proof.
  induction s as [|c s (pre & IH & Hpre)]; simpl.
  - exists "". split; [reflexivity | constructor].
  - destruct (JS.isWhiteSpace c) eqn:Hc.
    + exists (String c pre). simpl. split; [now rewrite <- IH|].
      constructor; assumption.
    + exists "". split; [reflexivity | constructor].
Qed.

Lemma blank_append (s t : string) : blank s -> blank t -> blank (s +:+ t).
Proof.
  unfold blank. induction s as [|c s IH]; simpl; intros Hs Ht; [assumption|].
  inversion Hs; subst. constructor; auto.
Qed.

(** [trim] yields the empty text exactly on blank texts. *)
Lemma trim_empty_iff (s : string) : JS.trim s = "" <-> blank s.
Proof.
  split; [|apply trim_blank].
  intros H. unfold JS.trim in H. apply trimEnd_empty_blank in H.
  destruct (trimStart_suffix s) as (pre & E & Hpre).
  rewrite E. now apply blank_append.
Qed.

End Strings.

(** ** Lists *)

Section Lists.
Context {A : Type}.

Lemma filter_selects (f : A -> bool) (P : A -> Prop) (l : list A) :
  (forall x, f x = true <-> P x) -> selects P l (List.filter f l).
Proof.
  intros Hf. repeat split.
  - induction l as [|x l IH]; simpl; [constructor|].
    destruct (f x); [now apply sublist_skip | now apply sublist_cons].
  - apply List.Forall_forall. intros x Hx.
    apply List.filter_In in Hx as [_ Hx]. now apply Hf.
  - intros k Hk. induction Hk as [|x k l Hk IH|x k l Hk IH]; intros HP; simpl.
    + constructor.
    + inversion HP as [|? ? Hx HPk]; subst.
      apply Hf in Hx. rewrite Hx. apply sublist_skip. auto.
    + destruct (f x); [apply sublist_cons|]; auto.
Qed.

Lemma filter_all (f : A -> bool) (l : list A) :
  (forall x, f x = true) -> List.filter f l = l.
Proof.
  intros Hf. induction l as [|x l IH]; simpl; [reflexivity|].
  now rewrite Hf, IH.
Qed.

End Lists.

Lemma Forall2_map_same {A : Type} (R : A -> A -> Prop) (f : A -> A) (l : list A) :
  (forall x, R x (f x)) -> Forall2 R l (List.map f l).
Proof. intros H. induction l; simpl; constructor; auto. Qed.

Lemma Forall2_same {A : Type} (R : A -> A -> Prop) (l : list A) :
  (forall x, R x x) -> Forall2 R l l.
Proof. intros H. induction l; constructor; auto. Qed.

(** ** The search filter *)

(** C8. [filteredChats] with the empty query returns all chats in their
    order; with a query [q] it returns exactly the chats whose name
    contains [q] up to case, in their order.  Both implementations. *)
Theorem filteredChats_exact (cs : list ChatApp.Chat.t) (rs : list ChatRoute.Chat.t)
    (q : string) :
  ChatApp.filteredChats cs "" = cs /\
  selects (fun c => containsIgnoringCase (ChatApp.Chat.name c) q) cs
    (ChatApp.filteredChats cs q) /\
  ChatRoute.filteredChats rs "" = rs /\
  selects (fun c => containsIgnoringCase (ChatRoute.Chat.name c) q) rs
    (ChatRoute.filteredChats rs q).
Proof.
  split; [|split; [|split]].
  - apply filter_all. intros c. apply includes_empty.
  - apply filter_selects. intros c. apply includes_lower_spec.
  - apply filter_all. intros c. apply includes_empty.
  - apply filter_selects. intros c. apply includes_lower_spec.
Qed.

(** ** Blank text *)

(** C6. Sending an empty or white-space-only text changes nothing: in
    [ChatApp] when the composer text [newMessage] is blank, in
    [ChatRoute] when the text handed to the send handler of the composer
    is blank.  No message is created and every message sequence, the
    active chat's included, is as before. *)
Theorem blank_send_is_noop (st : ChatApp.State) (rt : ChatRoute.State)
    (inputText : string) (now : Z) :
  blank (ChatApp.newMessage st) -> blank inputText ->
  ChatApp.sendMessage now st = st /\ ChatRoute.handleSend inputText now rt = rt.
Proof.
  intros Hst Hin. split.
  - unfold ChatApp.sendMessage. now rewrite (trim_blank _ Hst).
  - unfold ChatRoute.handleSend. now rewrite (trim_blank _ Hin).
Qed.

Lemma blank_send_is_noop_witness :
  ChatApp.sendMessage 1700000001000 Ex.appBlank = Ex.appBlank /\
  ChatRoute.handleSend "   " 1700000001000 Ex.routeOpen = Ex.routeOpen.
Proof. apply blank_send_is_noop; repeat constructor. Defined.

(** ** [ChatApp]: what the updaters keep *)

Section AppUpdaters.
Import ChatApp.

Lemma appIds_appendTo (a : string) (m : Message.t) (cs : list Chat.t) :
  appIds (appendTo a m cs) = appIds cs.
Proof.
  unfold appIds, appendTo. rewrite List.map_map. apply List.map_ext.
  intros c. now destruct (String.eqb (Chat.id c) a).
Qed.

Lemma appIds_markAsReadChats (a : string) (cs : list Chat.t) :
  appIds (markAsReadChats a cs) = appIds cs.
Proof.
  unfold appIds, markAsReadChats. rewrite List.map_map. apply List.map_ext.
  intros c. now destruct (String.eqb (Chat.id c) a).
Qed.

Lemma unread_appendTo (a : string) (m : Message.t) (cs : list Chat.t) :
  List.map Chat.unreadCount (appendTo a m cs) = List.map Chat.unreadCount cs.
Proof.
  unfold appendTo. rewrite List.map_map. apply List.map_ext.
  intros c. now destruct (String.eqb (Chat.id c) a).
Qed.

Lemma lastMessage_appendTo (a : string) (m : Message.t) (cs : list Chat.t) :
  List.map Chat.lastMessage (appendTo a m cs) = List.map Chat.lastMessage cs.
Proof.
  unfold appendTo. rewrite List.map_map. apply List.map_ext.
  intros c. now destruct (String.eqb (Chat.id c) a).
Qed.

Lemma countsBelow_map (f : Chat.t -> Chat.t) (cs : list Chat.t) :
  (forall c, Chat.id (f c) = Chat.id c /\ Chat.unreadCount (f c) <= Chat.unreadCount c) ->
  countsBelow cs (List.map f cs).
Proof.
  intros Hf. unfold countsBelow. induction cs as [|c cs IH]; simpl; constructor; auto.
Qed.

Lemma countsBelow_appendTo (a : string) (m : Message.t) (cs : list Chat.t) :
  countsBelow cs (appendTo a m cs).
Proof.
  apply countsBelow_map. intros c. destruct (String.eqb (Chat.id c) a); simpl; auto.
Qed.

Lemma countsBelow_markAsReadChats (a : string) (cs : list Chat.t) :
  countsBelow cs (markAsReadChats a cs).
Proof.
  apply countsBelow_map. intros c.
  destruct (String.eqb (Chat.id c) a); simpl; split; auto; lia.
Qed.

Lemma countsBelow_refl (cs : list Chat.t) : countsBelow cs cs.
Proof. unfold countsBelow. induction cs; constructor; auto. Qed.

Lemma countsBelow_trans (cs1 cs2 cs3 : list Chat.t) :
  countsBelow cs1 cs2 -> countsBelow cs2 cs3 -> countsBelow cs1 cs3.
Proof.
  unfold countsBelow. intros H12. revert cs3.
  induction H12 as [|c1 c2 l1 l2 [Hi Hu] _ IH]; intros cs3 H23.
  - inversion H23. constructor.
  - inversion H23 as [|? c3 ? l3 [Hi' Hu'] H]; subst. constructor.
    + split; [congruence | lia].
    + auto.
Qed.

Lemma countsBelow_zero (cs cs' : list Chat.t) :
  countsBelow cs cs' ->
  Forall (fun c => Chat.unreadCount c = 0) cs ->
  Forall (fun c => Chat.unreadCount c = 0) cs'.
Proof.
  unfold countsBelow. induction 1 as [|c c' l l' [_ Hu] _ IH]; intros Hz.
  - constructor.
  - inversion Hz; subst. constructor; [lia | auto].
Qed.

Lemma countsNotAbove_refl (cs : list Chat.t) : countsNotAbove cs cs.
Proof.
  exists [], cs. split; [reflexivity|]. split; [constructor | apply countsBelow_refl].
Qed.

(** Counts that stay below after the list was extended stay below. *)
Lemma countsNotAbove_below (cs0 cs cs' : list Chat.t) :
  countsNotAbove cs0 cs -> countsBelow cs cs' -> countsNotAbove cs0 cs'.
Proof.
  intros (created & kept & -> & Hz & Hk) H.
  unfold countsBelow in H. apply Forall2_app_inv_l in H as (c' & k' & Hc & Hk' & ->).
  exists c', k'. split; [reflexivity|]. split.
  - now apply (countsBelow_zero created).
  - now apply (countsBelow_trans _ kept).
Qed.

Lemma countsNotAbove_cons (cs0 cs : list Chat.t) (c : Chat.t) :
  countsNotAbove cs0 cs -> Chat.unreadCount c = 0 -> countsNotAbove cs0 (c :: cs).
Proof.
  intros (created & kept & -> & Hz & Hk) H0.
  exists (c :: created), kept. split; [reflexivity|]. split; [constructor|]; auto.
Qed.

(** What [sendMessage] does to the chat list: nothing, or one appended
    message in the active chat. *)
Lemma sendMessage_chats (now : Z) (st : State) :
  chats (sendMessage now st) = chats st \/
  exists a, activeChat st = Some a /\ ~ blank (newMessage st) /\
    chats (sendMessage now st) =
    appendTo a (Message.mk (JS.toString now) (newMessage st) (TDate (DateMs now)) user true)
      (chats st).
Proof.
  unfold sendMessage.
  destruct (JS.truthy (JS.trim (newMessage st))) eqn:Ht; [|now left].
  destruct (JS.truthy_opt (activeChat st)); [|now left]. cbn [negb orb].
  destruct (activeChat st) as [a|]; [|now left].
  right. exists a. split; [reflexivity|]. split.
  - intros Hb. apply trim_blank in Hb. rewrite Hb in Ht. discriminate.
  - destruct (findChat (chats st) (Some a)) as [c|]; [|reflexivity].
    now destruct (ChatType_eqb (Chat.type c) ai_chat).
Qed.

Lemma sendMessage_activeChat (now : Z) (st : State) :
  activeChat (sendMessage now st) = activeChat st.
Proof.
  unfold sendMessage.
  destruct (negb (JS.truthy (JS.trim (newMessage st))) || negb (JS.truthy_opt (activeChat st)));
    [reflexivity|].
  destruct (activeChat st) as [a|] eqn:E; [|now rewrite E].
  destruct (findChat (chats st) (Some a)) as [c|]; [|reflexivity].
  now destruct (ChatType_eqb (Chat.type c) ai_chat).
Qed.

Lemma fireTimer_chats (i : nat) (now : Z) (pick : nat) (st : State) :
  chats (fireTimer i now pick st) = chats st \/
  exists tm, timers st !! i = Some tm /\
    chats (fireTimer i now pick st) =
    appendTo (timer_chat tm)
      (Message.mk (JS.toString (now + 1)) (generateAIResponse pick (timer_text tm))
         (TDate (DateMs now)) ai true)
      (chats st).
Proof.
  unfold fireTimer. destruct (timers st !! i) as [tm|]; [|now left].
  right. now exists tm.
Qed.

Lemma fireTimer_activeChat (i : nat) (now : Z) (pick : nat) (st : State) :
  activeChat (fireTimer i now pick st) = activeChat st.
Proof. unfold fireTimer. now destruct (timers st !! i). Qed.

(** One step keeps every count where it is or lowers it, and gives a
    created chat the count zero. *)
Lemma step_countsNotAbove (cs0 : list Chat.t) (s s' : State) :
  step s s' -> countsNotAbove cs0 (chats s) -> countsNotAbove cs0 (chats s').
Proof.
  intros Hstep H. destruct Hstep as [st q|st t _|st now _|st i now pick _ _|st ty now|st c _];
    simpl; auto.
  - destruct (sendMessage_chats now st) as [->|(a & _ & _ & ->)]; [assumption|].
    eapply countsNotAbove_below; [eassumption | apply countsBelow_appendTo].
  - destruct (fireTimer_chats i now pick st) as [->|(tm & _ & ->)]; [assumption|].
    eapply countsNotAbove_below; [eassumption | apply countsBelow_appendTo].
  - now apply countsNotAbove_cons.
  - eapply countsNotAbove_below; [eassumption | apply countsBelow_markAsReadChats].
Qed.

Lemma step_appActiveValid (s s' : State) :
  step s s' -> appActiveValid s -> appActiveValid s'.
Proof.
  unfold appActiveValid.
  intros Hstep H. destruct Hstep as [st q|st t _|st now _|st i now pick _ _|st ty now|st c Hc];
    simpl; auto.
  - rewrite sendMessage_activeChat.
    destruct (sendMessage_chats now st) as [->|(a & _ & _ & ->)]; [assumption|].
    now rewrite appIds_appendTo.
  - rewrite fireTimer_activeChat.
    destruct (fireTimer_chats i now pick st) as [->|(tm & _ & ->)]; [assumption|].
    now rewrite appIds_appendTo.
  - left.
  - rewrite appIds_markAsReadChats. unfold appIds.
    apply list_elem_of_In, List.in_map.
    apply list_elem_of_In in Hc. unfold filteredChats in Hc.
    now apply List.filter_In in Hc as [Hc _].
Qed.

End AppUpdaters.

(** ** [ChatRoute]: what the updaters keep *)

Section RouteUpdaters.
Import ChatRoute.

Lemma routeIds_clearUnread (a : string) (cs : list Chat.t) :
  routeIds (clearUnread a cs) = routeIds cs.
Proof.
  unfold routeIds, clearUnread. rewrite List.map_map. apply List.map_ext.
  intros c. now destruct (String.eqb (Chat.id c) a).
Qed.

Lemma routeIds_setLastMessage (a : string) (m : Message.t) (cs : list Chat.t) :
  routeIds (setLastMessage a m cs) = routeIds cs.
Proof.
  unfold routeIds, setLastMessage. rewrite List.map_map. apply List.map_ext.
  intros c. now destruct (String.eqb (Chat.id c) a).
Qed.

Lemma handleSendMessage_activeChat (text : string) (now : Z) (st : State) :
  activeChat (handleSendMessage text now st) = activeChat st.
Proof.
  unfold handleSendMessage.
  destruct (negb (JS.truthy_opt (activeChat st))); [reflexivity|].
  destruct (activeChat st) as [a|] eqn:E; [|now rewrite E].
  now destruct (match findChat (chats st) (Some a) with
                | Some chat => ChatType_eqb (Chat.type chat) ai_chat
                | None => false
                end).
Qed.

Lemma handleSendMessage_ids (text : string) (now : Z) (st : State) :
  routeIds (chats (handleSendMessage text now st)) = routeIds (chats st).
Proof.
  unfold handleSendMessage.
  destruct (negb (JS.truthy_opt (activeChat st))); [reflexivity|].
  destruct (activeChat st) as [a|] eqn:E; [|reflexivity].
  destruct (match findChat (chats st) (Some a) with
            | Some chat => ChatType_eqb (Chat.type chat) ai_chat
            | None => false
            end); simpl; apply routeIds_setLastMessage.
Qed.

Lemma resolveReply_activeChat (i : nat) (now : Z) (pick : nat) (st : State) :
  activeChat (resolveReply i now pick st) = activeChat st.
Proof. unfold resolveReply. now destruct (pending st !! i). Qed.

Lemma resolveReply_ids (i : nat) (now : Z) (pick : nat) (st : State) :
  routeIds (chats (resolveReply i now pick st)) = routeIds (chats st).
Proof.
  unfold resolveReply. destruct (pending st !! i); [|reflexivity].
  simpl. apply routeIds_setLastMessage.
Qed.

Lemma step_routeActiveValid (s s' : State) :
  step s s' -> routeActiveValid s -> routeActiveValid s'.
Proof.
  unfold routeActiveValid.
  intros Hstep H.
  destruct Hstep as [st w|st q _|st t now _ _|st i now pick _ _|st now _|st _ _|st c _ Hc];
    simpl; auto.
  - unfold handleSend. destruct (JS.truthy (JS.trim t)); [|assumption].
    now rewrite handleSendMessage_activeChat, handleSendMessage_ids.
  - now rewrite resolveReply_activeChat, resolveReply_ids.
  - left.
  - rewrite routeIds_clearUnread. unfold routeIds.
    apply list_elem_of_In, List.in_map.
    apply list_elem_of_In in Hc. unfold filteredChats in Hc.
    now apply List.filter_In in Hc as [Hc _].
Qed.

End RouteUpdaters.

(** ** Selecting a chat *)

Lemma app_reachable_activeValid (s0 s : ChatApp.State) :
  ChatApp.reachable s0 s -> appActiveValid s0 -> appActiveValid s.
Proof.
  induction 1 as [|s s' _ IH Hstep]; intros H0; [assumption|].
  eapply step_appActiveValid; eauto.
Qed.

Lemma route_reachable_activeValid (r0 r : ChatRoute.State) :
  ChatRoute.reachable r0 r -> routeActiveValid r0 -> routeActiveValid r.
Proof.
  induction 1 as [|s s' _ IH Hstep]; intros H0; [assumption|].
  eapply step_routeActiveValid; eauto.
Qed.

Lemma markAsReadChats_unknown (chatId : string) (cs : list ChatApp.Chat.t) :
  chatId ∉ appIds cs -> ChatApp.markAsReadChats chatId cs = cs.
Proof.
  unfold appIds, ChatApp.markAsReadChats. induction cs as [|c cs IH]; simpl; intros H.
  - reflexivity.
  - apply not_elem_of_cons in H as [Hc Hcs]. rewrite (IH Hcs).
    destruct (String.eqb_spec (ChatApp.Chat.id c) chatId); [congruence | reflexivity].
Qed.

Lemma clearUnread_unknown (chatId : string) (cs : list ChatRoute.Chat.t) :
  chatId ∉ routeIds cs -> ChatRoute.clearUnread chatId cs = cs.
Proof.
  unfold routeIds, ChatRoute.clearUnread. induction cs as [|c cs IH]; simpl; intros H.
  - reflexivity.
  - apply not_elem_of_cons in H as [Hc Hcs]. rewrite (IH Hcs).
    destruct (String.eqb_spec (ChatRoute.Chat.id c) chatId); [congruence | reflexivity].
Qed.

(** C4, as the code has it.  For an id that no chat has, [markAsRead]
    of [ChatApp] leaves the whole state as it is.  [handleChatSelect] of
    the route does not look for the chat: for an id that is no property
    name of [Object.prototype] it makes the id the active one, leaves the
    chats and the messages kept under every other id as they are, and
    keeps under the id itself the messages there were, in their order,
    those the user did not send with status [read] and the user's own
    untouched (the empty list when there were none); the chat list is
    hidden in a mobile window, and the other cells are unchanged.  The
    active id is the id of a chat in every state reached through the
    interface, whose chat rows pass ids of listed chats only. *)
Theorem select_unknown_moves_selection_only
    (st s0 s : ChatApp.State) (rt r0 r : ChatRoute.State) (chatId : string) :
  chatId ∉ appIds (ChatApp.chats st) ->
  chatId ∉ routeIds (ChatRoute.chats rt) ->
  JS.inherited chatId = false ->
  ChatApp.reachable s0 s -> appActiveValid s0 ->
  ChatRoute.reachable r0 r -> routeActiveValid r0 ->
  ChatApp.markAsRead chatId st = st /\
  ChatRoute.activeChat (ChatRoute.handleChatSelect chatId rt) = Some chatId /\
  ChatRoute.chats (ChatRoute.handleChatSelect chatId rt) = ChatRoute.chats rt /\
  (forall k, k <> chatId ->
     ChatRoute.messages (ChatRoute.handleChatSelect chatId rt) !! k
     = ChatRoute.messages rt !! k) /\
  (exists kept,
     ChatRoute.messages (ChatRoute.handleChatSelect chatId rt) !! chatId = Some kept /\
     Forall2 (fun m m' =>
                (ChatRoute.Message.sender m = user -> m' = m) /\
                (ChatRoute.Message.sender m <> user ->
                 m' = ChatRoute.Message.with_status ChatRoute.read m))
       (default [] (ChatRoute.messages rt !! chatId)) kept) /\
  ChatRoute.showSidebar (ChatRoute.handleChatSelect chatId rt)
  = (if ChatRoute.isMobile rt then false else ChatRoute.showSidebar rt) /\
  ChatRoute.searchQuery (ChatRoute.handleChatSelect chatId rt) = ChatRoute.searchQuery rt /\
  ChatRoute.isTyping (ChatRoute.handleChatSelect chatId rt) = ChatRoute.isTyping rt /\
  ChatRoute.isMobile (ChatRoute.handleChatSelect chatId rt) = ChatRoute.isMobile rt /\
  ChatRoute.pending (ChatRoute.handleChatSelect chatId rt) = ChatRoute.pending rt /\
  appActiveValid s /\ routeActiveValid r.
Proof.
  intros Hst Hrt _ Hs Hs0 Hr Hr0.
  split; [|split; [|split; [|split; [|split]]]].
  - unfold ChatApp.markAsRead. rewrite (markAsReadChats_unknown _ _ Hst).
    now destruct st.
  - reflexivity.
  - simpl. now apply clearUnread_unknown.
  - intros k Hk. simpl. unfold ChatRoute.markMessagesRead.
    now rewrite lookup_insert_ne.
  - eexists. split.
    + simpl. unfold ChatRoute.markMessagesRead. apply lookup_insert_eq.
    + unfold ChatRoute.messagesOf. apply Forall2_map_same.
      intros m. unfold Sender_eqb. case_bool_decide as E; simpl; split; congruence.
  - repeat (split; [reflexivity|]). split.
    + now apply (app_reachable_activeValid s0).
    + now apply (route_reachable_activeValid r0).
Qed.

(** C4, as stated, fails on the route: no seed chat has the id [zzz], no
    chat is active and nothing is kept under [zzz]; [handleChatSelect]
    makes [zzz] the active id and records the empty list under it. *)
Lemma select_unknown_changes_state :
  bool_decide ("zzz" ∈ routeIds (ChatRoute.chats Ex.route0)) = false /\
  ChatRoute.activeChat Ex.route0 = None /\
  ChatRoute.messages Ex.route0 !! "zzz" = None /\
  ChatRoute.activeChat (ChatRoute.handleChatSelect "zzz" Ex.route0) = Some "zzz" /\
  ChatRoute.messages (ChatRoute.handleChatSelect "zzz" Ex.route0) !! "zzz" = Some [].
Proof. repeat split; vm_compute; reflexivity. Qed.

(** ** The example states are reachable *)

Ltac by_computation := refine (bool_decide_unpack _ _); vm_compute; exact I.

Lemma app_sent_reachable : ChatApp.reachable Ex.app0 Ex.appSent.
Proof.
  pose (d := ChatApp.Chat.mk "" "" ai_chat "" None [] false 0).
  unfold Ex.appSent, Ex.appTyped.
  eapply ChatApp.reach_step;
    [| apply ChatApp.step_send; by_computation ].
  eapply ChatApp.reach_step;
    [| apply ChatApp.step_type; by_computation ].
  eapply ChatApp.reach_step;
    [ apply ChatApp.reach_init
    | apply (ChatApp.step_click Ex.app0 (List.nth 0 (ChatApp.chats Ex.app0) d));
      by_computation ].
Qed.

Lemma app_example_reachable : ChatApp.reachable Ex.app0 Ex.appReplied.
Proof.
  pose (d := ChatApp.Chat.mk "" "" ai_chat "" None [] false 0).
  unfold Ex.appReplied, Ex.appSwitched.
  eapply ChatApp.reach_step;
    [| apply ChatApp.step_timer; vm_compute; lia ].
  eapply ChatApp.reach_step;
    [ apply app_sent_reachable
    | apply (ChatApp.step_click Ex.appSent (List.nth 2 (ChatApp.chats Ex.appSent) d));
      by_computation ].
Qed.

Lemma route_example_reachable : ChatRoute.reachable Ex.route0 Ex.routeReplied.
Proof.
  pose (d := ChatRoute.Chat.mk "" "" ai_chat "" None 0 false).
  unfold Ex.routeReplied, Ex.routeSent, Ex.routeOpen.
  eapply ChatRoute.reach_step;
    [| apply ChatRoute.step_resolve; vm_compute; lia ].
  eapply ChatRoute.reach_step;
    [| apply ChatRoute.step_send; [reflexivity | by_computation] ].
  eapply ChatRoute.reach_step;
    [ apply ChatRoute.reach_init
    | apply (ChatRoute.step_click Ex.route0 (List.nth 0 (ChatRoute.chats Ex.route0) d));
      [reflexivity | by_computation] ].
Qed.

(** What [Ex.routeReloaded] keeps under the id of the chat created
    before the page was loaded again. *)
Lemma routeReloaded_messages :
  ChatRoute.messages Ex.routeReloaded !! "ai-1700000000500"
  = Some [ ChatRoute.Message.mk "1700000001000" "Hello" user
             (TString "2023-11-14T22:13:21.000Z") ChatRoute.sent;
           ChatRoute.Message.mk "1700000001000" "Hello" user
             (TString "2023-11-14T22:13:21.000Z") ChatRoute.sent;
           ChatRoute.Message.mk "1700000003001" (ChatRoute.getAIResponse 2 "Hello") ai
             (TString "2023-11-14T22:13:23.000Z") ChatRoute.delivered ].
Proof. vm_compute. reflexivity. Qed.

Lemma select_unknown_moves_selection_only_witness :
  ChatApp.markAsRead "ai-1700000000500" Ex.appSent = Ex.appSent /\
  ChatRoute.activeChat (ChatRoute.handleChatSelect "ai-1700000000500" Ex.routeReloaded)
  = Some "ai-1700000000500" /\
  ChatRoute.chats (ChatRoute.handleChatSelect "ai-1700000000500" Ex.routeReloaded)
  = ChatRoute.chats Ex.routeReloaded /\
  (forall k, k <> "ai-1700000000500" ->
     ChatRoute.messages (ChatRoute.handleChatSelect "ai-1700000000500" Ex.routeReloaded) !! k
     = ChatRoute.messages Ex.routeReloaded !! k) /\
  (exists kept,
     ChatRoute.messages (ChatRoute.handleChatSelect "ai-1700000000500" Ex.routeReloaded)
       !! "ai-1700000000500" = Some kept /\
     Forall2 (fun m m' =>
                (ChatRoute.Message.sender m = user -> m' = m) /\
                (ChatRoute.Message.sender m <> user ->
                 m' = ChatRoute.Message.with_status ChatRoute.read m))
       (default [] (ChatRoute.messages Ex.routeReloaded !! "ai-1700000000500")) kept) /\
  ChatRoute.showSidebar (ChatRoute.handleChatSelect "ai-1700000000500" Ex.routeReloaded)
  = (if ChatRoute.isMobile Ex.routeReloaded then false
     else ChatRoute.showSidebar Ex.routeReloaded) /\
  ChatRoute.searchQuery (ChatRoute.handleChatSelect "ai-1700000000500" Ex.routeReloaded)
  = ChatRoute.searchQuery Ex.routeReloaded /\
  ChatRoute.isTyping (ChatRoute.handleChatSelect "ai-1700000000500" Ex.routeReloaded)
  = ChatRoute.isTyping Ex.routeReloaded /\
  ChatRoute.isMobile (ChatRoute.handleChatSelect "ai-1700000000500" Ex.routeReloaded)
  = ChatRoute.isMobile Ex.routeReloaded /\
  ChatRoute.pending (ChatRoute.handleChatSelect "ai-1700000000500" Ex.routeReloaded)
  = ChatRoute.pending Ex.routeReloaded /\
  appActiveValid Ex.appReplied /\ routeActiveValid Ex.routeReplied.
Proof.
  apply (select_unknown_moves_selection_only
           Ex.appSent Ex.app0 Ex.appReplied Ex.routeReloaded Ex.route0 Ex.routeReplied
           "ai-1700000000500").
  - by_computation.
  - by_computation.
  - reflexivity.
  - exact app_example_reachable.
  - exact I.
  - exact route_example_reachable.
  - exact I.
Defined.

(** ** Marking a chat read *)

Lemma markAsReadChats_read (chatId : string) (cs : list ChatApp.Chat.t) :
  Forall (fun c => ChatApp.Chat.id c = chatId ->
            ChatApp.Chat.unreadCount c = 0 /\
            Forall (fun m => ChatApp.Message.isRead m = true) (ChatApp.Chat.messages c))
    (ChatApp.markAsReadChats chatId cs).
Proof.
  unfold ChatApp.markAsReadChats. apply List.Forall_forall. intros c' Hin.
  apply List.in_map_iff in Hin as (c & <- & _).
  destruct (String.eqb_spec (ChatApp.Chat.id c) chatId) as [E|E]; simpl; [|congruence].
  intros _. split; [reflexivity|].
  apply List.Forall_forall. intros m Hm.
  now apply List.in_map_iff in Hm as (m0 & <- & _).
Qed.

Lemma clearUnread_zero (chatId : string) (cs : list ChatRoute.Chat.t) :
  Forall (fun c => ChatRoute.Chat.id c = chatId -> ChatRoute.Chat.unreadCount c = 0)
    (ChatRoute.clearUnread chatId cs).
Proof.
  unfold ChatRoute.clearUnread. apply List.Forall_forall. intros c' Hin.
  apply List.in_map_iff in Hin as (c & <- & _).
  destruct (String.eqb_spec (ChatRoute.Chat.id c) chatId) as [E|E]; simpl; congruence.
Qed.

Lemma messagesOf_markMessagesRead (chatId : string)
    (ms : gmap string (list ChatRoute.Message.t)) :
  ChatRoute.messagesOf (ChatRoute.markMessagesRead chatId ms) chatId
  = List.map (fun msg => if negb (Sender_eqb (ChatRoute.Message.sender msg) user)
                         then ChatRoute.Message.with_status ChatRoute.read msg else msg)
      (ChatRoute.messagesOf ms chatId).
Proof.
  unfold ChatRoute.markMessagesRead. unfold ChatRoute.messagesOf at 1.
  now rewrite lookup_insert_eq.
Qed.

(** C5, as the code has it.  After a chat is selected its unread count is
    zero and every message in it that the user did not send is read.
    [ChatApp] marks the user's own messages read as well; the route
    leaves their status as it was. *)
Theorem select_marks_received_read
    (st : ChatApp.State) (rt : ChatRoute.State) (chatId : string) :
  Forall (fun c => ChatApp.Chat.id c = chatId ->
            ChatApp.Chat.unreadCount c = 0 /\
            Forall (fun m => ChatApp.Message.isRead m = true) (ChatApp.Chat.messages c))
    (ChatApp.chats (ChatApp.selectChat chatId st)) /\
  Forall (fun c => ChatRoute.Chat.id c = chatId -> ChatRoute.Chat.unreadCount c = 0)
    (ChatRoute.chats (ChatRoute.handleChatSelect chatId rt)) /\
  Forall2 (fun m m' =>
             sameButStatus m m' /\
             (ChatRoute.Message.sender m <> user ->
              ChatRoute.Message.status m' = ChatRoute.read) /\
             (ChatRoute.Message.sender m = user -> m' = m))
    (ChatRoute.messagesOf (ChatRoute.messages rt) chatId)
    (ChatRoute.messagesOf (ChatRoute.messages (ChatRoute.handleChatSelect chatId rt)) chatId).
Proof.
  split; [|split].
  - apply markAsReadChats_read.
  - apply clearUnread_zero.
  - simpl. rewrite messagesOf_markMessagesRead. apply Forall2_map_same.
    intros m. unfold Sender_eqb. case_bool_decide as E; simpl.
    + repeat split; congruence.
    + repeat split; congruence.
Qed.

(** C5, as stated, fails on the route: the second chat exists, holds a
    message the user sent with status [sent], and after it is selected
    the message is still there with status [sent]. *)
Lemma select_leaves_user_message_unread :
  "2" ∈ routeIds (ChatRoute.chats Ex.routeWithUserMessage) /\
  ChatRoute.messagesOf
    (ChatRoute.messages (ChatRoute.handleChatSelect "2" Ex.routeWithUserMessage)) "2"
  = [Ex.userMessage] /\
  ChatRoute.Message.sender Ex.userMessage = user /\
  ChatRoute.Message.status Ex.userMessage = ChatRoute.sent.
Proof. split; [by_computation | repeat split]. Qed.

(** C10. [markAsRead] changes nothing but the read markers of the
    messages of the chats with the given id and the unread count of
    those chats: other chats are as before, and in a chat with that id
    the messages keep their number, order, ids, texts, timestamps and
    senders.  The same holds of the two updaters of the route's select
    handler. *)
Theorem markAsRead_frame
    (st : ChatApp.State) (rt : ChatRoute.State) (chatId : string) :
  Forall2 (fun c c' => sameButReadState c c' /\ (ChatApp.Chat.id c <> chatId -> c' = c))
    (ChatApp.chats st) (ChatApp.chats (ChatApp.markAsRead chatId st)) /\
  ChatApp.activeChat (ChatApp.markAsRead chatId st) = ChatApp.activeChat st /\
  ChatApp.searchQuery (ChatApp.markAsRead chatId st) = ChatApp.searchQuery st /\
  ChatApp.newMessage (ChatApp.markAsRead chatId st) = ChatApp.newMessage st /\
  ChatApp.isTyping (ChatApp.markAsRead chatId st) = ChatApp.isTyping st /\
  ChatApp.timers (ChatApp.markAsRead chatId st) = ChatApp.timers st /\
  Forall2 (fun c c' => sameButUnread c c' /\ (ChatRoute.Chat.id c <> chatId -> c' = c))
    (ChatRoute.chats rt) (ChatRoute.clearUnread chatId (ChatRoute.chats rt)) /\
  (forall k, k <> chatId ->
     ChatRoute.markMessagesRead chatId (ChatRoute.messages rt) !! k
     = ChatRoute.messages rt !! k) /\
  Forall2 sameButStatus
    (ChatRoute.messagesOf (ChatRoute.messages rt) chatId)
    (ChatRoute.messagesOf (ChatRoute.markMessagesRead chatId (ChatRoute.messages rt)) chatId).
Proof.
  split; [|repeat (split; [reflexivity|]); split; [|split]].
  - simpl. unfold ChatApp.markAsReadChats. apply Forall2_map_same. intros c.
    destruct (String.eqb_spec (ChatApp.Chat.id c) chatId) as [E|E].
    + split; [|congruence]. unfold sameButReadState. simpl.
      repeat (split; [reflexivity|]).
      apply Forall2_map_same. intros m. now unfold sameButRead.
    + split; [|reflexivity]. unfold sameButReadState.
      repeat (split; [reflexivity|]).
      apply Forall2_same. intros m. now unfold sameButRead.
  - unfold ChatRoute.clearUnread. apply Forall2_map_same. intros c.
    destruct (String.eqb_spec (ChatRoute.Chat.id c) chatId) as [E|E].
    + split; [|congruence]. now unfold sameButUnread.
    + split; [|reflexivity]. now unfold sameButUnread.
  - intros k Hk. unfold ChatRoute.markMessagesRead. now rewrite lookup_insert_ne.
  - rewrite messagesOf_markMessagesRead. apply Forall2_map_same. intros m.
    destruct (negb (Sender_eqb (ChatRoute.Message.sender m) user)); now unfold sameButStatus.
Qed.

(** ** Unread counts in [ChatApp] *)

Lemma app_reachable_countsNotAbove (s0 s : ChatApp.State) :
  ChatApp.reachable s0 s -> countsNotAbove (ChatApp.chats s0) (ChatApp.chats s).
Proof.
  induction 1 as [|s s' _ IH Hstep]; [apply countsNotAbove_refl|].
  eapply step_countsNotAbove; eauto.
Qed.

(** C9. In [ChatApp] the message of a simulated reply is created read,
    and no operation raises an unread count: in every state reached from
    [s0] each chat of [s0] has a count not above the one it had, and each
    chat created since has count zero.  In particular the reply of a
    timer leaves every count as it is, whichever chat is active. *)
Theorem unread_never_incremented
    (s0 s : ChatApp.State) (tm : ChatApp.Timer) (now : Z) (pick : nat) :
  ChatApp.reachable s0 s ->
  countsNotAbove (ChatApp.chats s0) (ChatApp.chats s) /\
  (exists m,
      ChatApp.Message.isRead m = true /\ ChatApp.Message.sender m = ai /\
      ChatApp.chats (ChatApp.timerCallback tm now pick s)
      = ChatApp.appendTo (ChatApp.timer_chat tm) m (ChatApp.chats s)) /\
  List.map ChatApp.Chat.unreadCount (ChatApp.chats (ChatApp.timerCallback tm now pick s))
  = List.map ChatApp.Chat.unreadCount (ChatApp.chats s).
Proof.
  intros Hs. split; [now apply app_reachable_countsNotAbove|]. split.
  - eexists. split; [|split; [|reflexivity]]; reflexivity.
  - simpl. apply unread_appendTo.
Qed.

Lemma unread_never_incremented_witness :
  countsNotAbove (ChatApp.chats Ex.app0) (ChatApp.chats Ex.appReplied) /\
  (exists m,
      ChatApp.Message.isRead m = true /\ ChatApp.Message.sender m = ai /\
      ChatApp.chats
        (ChatApp.timerCallback (ChatApp.mkTimer "2" "hi") 1700000004000 3 Ex.appReplied)
      = ChatApp.appendTo "2" m (ChatApp.chats Ex.appReplied)) /\
  List.map ChatApp.Chat.unreadCount
    (ChatApp.chats
       (ChatApp.timerCallback (ChatApp.mkTimer "2" "hi") 1700000004000 3 Ex.appReplied))
  = List.map ChatApp.Chat.unreadCount (ChatApp.chats Ex.appReplied).
Proof.
  exact (unread_never_incremented Ex.app0 Ex.appReplied (ChatApp.mkTimer "2" "hi")
           1700000004000 3 app_example_reachable).
Defined.

(** ** Where the code departs from the specification *)

(** C7. [ChatApp] computes [lastMessage] once, in the mount effect.  In
    the state reached by opening the first chat and sending [hi], and in
    the state after the reply, the first chat's [lastMessage] is still the
    seed message while its last message is the one just appended. *)
Theorem lastMessage_stale_after_send :
  ChatApp.reachable Ex.app0 Ex.appSent /\
  ChatApp.reachable Ex.app0 Ex.appReplied /\
  List.map (fun c => (ChatApp.Message.text <$> ChatApp.Chat.lastMessage c,
                      ChatApp.Message.text <$> last (ChatApp.Chat.messages c)))
    (take 1 (ChatApp.chats Ex.appSent))
  = [ (Some "Hello! I'm your AI assistant. How can I help you today?", Some "hi") ] /\
  List.map (fun c => (ChatApp.Message.text <$> ChatApp.Chat.lastMessage c,
                      ChatApp.Message.text <$> last (ChatApp.Chat.messages c)))
    (take 1 (ChatApp.chats Ex.appReplied))
  = [ (Some "Hello! I'm your AI assistant. How can I help you today?",
       Some "Great point! I can help you with that.") ].
Proof.
  split; [exact app_sent_reachable|]. split; [exact app_example_reachable|].
  split; reflexivity.
Qed.

(** C1. On the route the continuation of a send appends the user's
    message a second time together with the reply: after [Hello] is sent
    in the AI chat its history holds the one user message, and after the
    reply it holds that message twice, then the reply. *)
Theorem route_reply_repeats_user_message :
  ChatRoute.reachable Ex.route0 Ex.routeReplied /\
  List.map (fun m => (ChatRoute.Message.sender m, ChatRoute.Message.id m))
    (ChatRoute.messagesOf (ChatRoute.messages Ex.routeSent) "1")
  = [ (user, "1700000001000") ] /\
  List.map (fun m => (ChatRoute.Message.sender m, ChatRoute.Message.id m))
    (ChatRoute.messagesOf (ChatRoute.messages Ex.routeReplied) "1")
  = [ (user, "1700000001000"); (user, "1700000001000"); (ai, "1700000003001") ].
Proof.
  split; [exact route_example_reachable|]. split; vm_compute; reflexivity.
Qed.

(** C2. On the route a saved record of messages comes back from
    [loadMessages] with the timestamp as the text it was serialised to,
    not as a date. *)
Theorem route_load_leaves_timestamp_text :
  exists v,
    ChatRouteStore.loadMessages
      (ChatRouteStore.saveMessages {[ "2" := [Ex.userMessage] ]} true ∅) = Ok v /\
    ChatRouteStore.toMessages v
    = Some {[ "2" := [ ChatRoute.Message.mk "1700000000000" "Hello" user
                         (TString "2023-11-14T22:13:20.000Z") ChatRoute.sent ] ]} /\
    ChatRoute.Message.timestamp Ex.userMessage = TDate (DateMs 1700000000000).
Proof.
  eexists. split; [vm_compute; reflexivity|]. split; [vm_compute; reflexivity | reflexivity].
Qed.

(** C3. The initialiser of [ChatApp] has no handler around [JSON.parse]:
    on a truncated stored text the syntax error propagates, and on a
    text that parses to something other than an array the call of [map]
    throws.  [loadMessages] of the route returns the empty record on the
    same texts. *)
Theorem app_initialiser_throws_on_corrupt_store (now : Z) :
  ChatAppStore.initialChats now {[ ChatAppStore.STORAGE_KEY := "[{" ]} = Throw SyntaxError /\
  ChatAppStore.initialChats now {[ ChatAppStore.STORAGE_KEY := "{}" ]} = Throw TypeError /\
  ChatRouteStore.loadMessages {[ ChatRouteStore.STORAGE_KEY := "[{" ]} = Ok (VObj []).
Proof. repeat split; vm_compute; reflexivity. Qed.

(** ** [ChatApp]: sending and the reply *)

Section AppSend.
Import ChatApp.

Lemma find_id_Some (a : string) (cs : list Chat.t) (c : Chat.t) :
  List.find (fun c => String.eqb (Chat.id c) a) cs = Some c ->
  Chat.id c = a /\ c ∈ cs.
Proof.
  intros H. apply List.find_some in H as [Hin He].
  split; [now apply String.eqb_eq | now apply list_elem_of_In].
Qed.

Lemma appendTo_fresh (a : string) (m : Message.t) (cs : list Chat.t) :
  a ∉ appIds cs -> appendTo a m cs = cs.
Proof.
  unfold appIds, appendTo. induction cs as [|c cs IH]; simpl; intros H; [reflexivity|].
  apply not_elem_of_cons in H as [Hc Hcs]. rewrite (IH Hcs).
  destruct (String.eqb_spec (Chat.id c) a); [congruence | reflexivity].
Qed.

(** With distinct chat ids the updater of a send or a reply changes one
    chat only. *)
Lemma appendTo_unique (a : string) (m : Message.t) (cs : list Chat.t) :
  NoDup (appIds cs) -> a ∈ appIds cs -> onlyChatGrows a [m] cs (appendTo a m cs).
Proof.
  unfold onlyChatGrows. induction cs as [|c cs IH]; simpl; intros Hnd Hin.
  - inversion Hin.
  - apply NoDup_cons in Hnd as [Hc Hnd].
    destruct (String.eqb_spec (Chat.id c) a) as [E|E].
    + exists [], c, cs. simpl. repeat split; [assumption|].
      fold (appendTo a m cs). rewrite appendTo_fresh; [reflexivity | congruence].
    + apply elem_of_cons in Hin as [Hin|Hin]; [congruence|].
      destruct (IH Hnd Hin) as (pre & c0 & post & -> & Hid & Heq).
      exists (c :: pre), c0, post. simpl. repeat split; [assumption|].
      fold (appendTo a m (pre ++ c0 :: post)). now rewrite Heq.
Qed.

Lemma currentChat_Some (st : State) (c : Chat.t) :
  currentChat st = Some c ->
  activeChat st = Some (Chat.id c) /\ Chat.id c ∈ appIds (chats st).
Proof.
  unfold currentChat, findChat. destruct (activeChat st) as [a|]; [|discriminate].
  intros H. apply find_id_Some in H as [<- Hin]. split; [reflexivity|].
  unfold appIds. now apply list_elem_of_fmap_2.
Qed.

Lemma truthy_trim (s : string) : ~ blank s -> JS.truthy (JS.trim s) = true.
Proof.
  intros H. destruct (JS.trim s) eqn:E; [|reflexivity].
  exfalso. apply H. now apply trim_empty_iff.
Qed.

Lemma truthy_nonempty (s : string) : s <> "" -> JS.truthy s = true.
Proof. destruct s; [congruence | reflexivity]. Qed.

(** What a send that passes the guard does. *)
Lemma sendMessage_passes (now : Z) (st : State) (c : Chat.t) :
  currentChat st = Some c -> Chat.id c <> "" -> ~ blank (newMessage st) ->
  sendMessage now st =
  let message :=
    Message.mk (JS.toString now) (newMessage st) (TDate (DateMs now)) user true in
  if ChatType_eqb (Chat.type c) ai_chat
  then mkState (appendTo (Chat.id c) message (chats st)) (activeChat st) (searchQuery st)
         "" true (timers st ++ [mkTimer (Chat.id c) (newMessage st)])
  else mkState (appendTo (Chat.id c) message (chats st)) (activeChat st) (searchQuery st)
         "" (isTyping st) (timers st).
Proof.
  intros Hc Hid Hnb. pose proof (currentChat_Some _ _ Hc) as [Ha _].
  unfold currentChat in Hc. unfold sendMessage.
  rewrite (truthy_trim _ Hnb), Ha. simpl JS.truthy_opt.
  rewrite (truthy_nonempty _ Hid). simpl negb. simpl orb. cbv iota.
  rewrite Ha in Hc. rewrite Hc. reflexivity.
Qed.

End AppSend.

(** X1. In [ChatApp], with distinct chat ids, sending a text that is not
    blank while a chat is open appends one message to that chat and to no
    other: it is the user's, marked read, carries the composer text as
    typed and the clock reading as id and time; the composer is emptied
    and the selection stays. *)
Theorem app_send_appends_one (st : ChatApp.State) (c : ChatApp.Chat.t) (now : Z) :
  NoDup (appIds (ChatApp.chats st)) ->
  ChatApp.currentChat st = Some c -> ChatApp.Chat.id c <> "" ->
  ~ blank (ChatApp.newMessage st) ->
  onlyChatGrows (ChatApp.Chat.id c)
    [ ChatApp.Message.mk (JS.toString now) (ChatApp.newMessage st)
        (TDate (DateMs now)) user true ]
    (ChatApp.chats st) (ChatApp.chats (ChatApp.sendMessage now st)) /\
  ChatApp.newMessage (ChatApp.sendMessage now st) = "" /\
  ChatApp.activeChat (ChatApp.sendMessage now st) = ChatApp.activeChat st.
Proof.
  intros Hnd Hc Hid Hnb. rewrite (sendMessage_passes now st c Hc Hid Hnb).
  pose proof (currentChat_Some _ _ Hc) as [_ Hin]. cbv zeta.
  destruct (ChatType_eqb (ChatApp.Chat.type c) ai_chat); simpl;
    (split; [now apply appendTo_unique | split; reflexivity]).
Qed.

Lemma app_send_appends_one_witness :
  onlyChatGrows "1"
    [ ChatApp.Message.mk "1700000001000" "hi" (TDate (DateMs 1700000001000)) user true ]
    (ChatApp.chats Ex.appTyped) (ChatApp.chats Ex.appSent) /\
  ChatApp.newMessage Ex.appSent = "" /\
  ChatApp.activeChat Ex.appSent = Some "1".
Proof.
  apply (app_send_appends_one Ex.appTyped (Ex.appFirst Ex.appTyped) 1700000001000).
  - by_computation.
  - reflexivity.
  - by_computation.
  - by_computation.
Defined.


(** X2. In [ChatApp] a send in an AI chat sets one reply timer, which
    captures the id of that chat and the text sent, and shows the typing
    indicator; a send in a contact chat sets no timer and leaves the
    indicator alone. *)
Theorem app_send_schedules_reply_for_ai_only
    (st : ChatApp.State) (c : ChatApp.Chat.t) (now : Z) :
  ChatApp.currentChat st = Some c -> ChatApp.Chat.id c <> "" ->
  ~ blank (ChatApp.newMessage st) ->
  match ChatApp.Chat.type c with
  | ai_chat =>
      ChatApp.timers (ChatApp.sendMessage now st)
      = ChatApp.timers st ++ [ChatApp.mkTimer (ChatApp.Chat.id c) (ChatApp.newMessage st)] /\
      ChatApp.isTyping (ChatApp.sendMessage now st) = true
  | contact_chat =>
      ChatApp.timers (ChatApp.sendMessage now st) = ChatApp.timers st /\
      ChatApp.isTyping (ChatApp.sendMessage now st) = ChatApp.isTyping st
  end.
Proof.
  intros Hc Hid Hnb. rewrite (sendMessage_passes now st c Hc Hid Hnb). cbv zeta.
  destruct (ChatApp.Chat.type c); simpl; split; reflexivity.
Qed.

Lemma app_send_schedules_reply_for_ai_only_witness :
  ChatApp.timers Ex.appSent = [ChatApp.mkTimer "1" "hi"] /\
  ChatApp.isTyping Ex.appSent = true.
Proof.
  apply (app_send_schedules_reply_for_ai_only Ex.appTyped (Ex.appFirst Ex.appTyped)
           1700000001000).
  - reflexivity.
  - by_computation.
  - by_computation.
Defined.


(** X3. In [ChatApp], with distinct chat ids, when a pending reply timer
    fires the chat whose id it captured grows by one message and no other
    chat changes, whichever chat is active: the message is the AI's, is
    marked read and, for a draw below the number of canned replies,
    carries one of them.  The timer is gone, the typing indicator is off
    and the selection is as before. *)
Theorem app_reply_lands_in_captured_chat
    (st : ChatApp.State) (i : nat) (tm : ChatApp.Timer) (now : Z) (pick : nat) :
  NoDup (appIds (ChatApp.chats st)) ->
  ChatApp.timers st !! i = Some tm ->
  ChatApp.timer_chat tm ∈ appIds (ChatApp.chats st) ->
  pick < length ChatApp.responses ->
  (exists text,
      text ∈ ChatApp.responses /\
      onlyChatGrows (ChatApp.timer_chat tm)
        [ ChatApp.Message.mk (JS.toString (now + 1)) text (TDate (DateMs now)) ai true ]
        (ChatApp.chats st) (ChatApp.chats (ChatApp.fireTimer i now pick st))) /\
  ChatApp.timers (ChatApp.fireTimer i now pick st) = delete i (ChatApp.timers st) /\
  ChatApp.isTyping (ChatApp.fireTimer i now pick st) = false /\
  ChatApp.activeChat (ChatApp.fireTimer i now pick st) = ChatApp.activeChat st.
Proof.
  intros Hnd Htm Hin Hpick. unfold ChatApp.fireTimer. rewrite Htm. simpl.
  split; [|repeat split].
  exists (ChatApp.generateAIResponse pick (ChatApp.timer_text tm)). split.
  - unfold ChatApp.generateAIResponse.
    destruct (ChatApp.responses !! pick) as [r|] eqn:E.
    + simpl. now apply list_elem_of_lookup_2 in E.
    + apply lookup_ge_None in E. lia.
  - now apply appendTo_unique.
Qed.

Lemma app_reply_lands_in_captured_chat_witness :
  (exists text,
      text ∈ ChatApp.responses /\
      onlyChatGrows "1"
        [ ChatApp.Message.mk (JS.toString (1700000003000 + 1)) text
            (TDate (DateMs 1700000003000)) ai true ]
        (ChatApp.chats Ex.appSwitched) (ChatApp.chats Ex.appReplied)) /\
  ChatApp.timers Ex.appReplied = [] /\
  ChatApp.isTyping Ex.appReplied = false /\
  ChatApp.activeChat Ex.appReplied = Some "3".
Proof.
  apply (app_reply_lands_in_captured_chat Ex.appSwitched 0 (ChatApp.mkTimer "1" "hi")
           1700000003000 2).
  - by_computation.
  - reflexivity.
  - by_computation.
  - vm_compute. lia.
Defined.


Section AppHistory.
Import ChatApp.

Lemma find_map_id (f : Chat.t -> Chat.t) (a : string) (cs : list Chat.t) :
  (forall c, Chat.id (f c) = Chat.id c) ->
  List.find (fun c => String.eqb (Chat.id c) a) (List.map f cs)
  = f <$> List.find (fun c => String.eqb (Chat.id c) a) cs.
Proof.
  intros Hf. induction cs as [|c cs IH]; simpl; [reflexivity|].
  rewrite Hf. now destruct (String.eqb (Chat.id c) a).
Qed.

Lemma appHistory_appendTo (a b : string) (m : Message.t) (cs : list Chat.t) :
  appHistory a (appendTo b m cs)
  = (fun ms => if String.eqb a b then ms ++ [m] else ms) <$> appHistory a cs.
Proof.
  unfold appHistory, appendTo. rewrite find_map_id.
  - destruct (List.find _ cs) as [c|] eqn:E; simpl; [|reflexivity].
    apply find_id_Some in E as [<- _].
    now destruct (String.eqb (Chat.id c) b).
  - intros c. now destruct (String.eqb (Chat.id c) b).
Qed.

Lemma appHistory_markAsReadChats (a b : string) (cs : list Chat.t) :
  appHistory a (markAsReadChats b cs)
  = (fun ms => if String.eqb a b then List.map (Message.with_isRead true) ms else ms)
      <$> appHistory a cs.
Proof.
  unfold appHistory, markAsReadChats. rewrite find_map_id.
  - destruct (List.find _ cs) as [c|] eqn:E; simpl; [|reflexivity].
    apply find_id_Some in E as [<- _].
    now destruct (String.eqb (Chat.id c) b).
  - intros c. now destruct (String.eqb (Chat.id c) b).
Qed.

End AppHistory.

(** X4. In [ChatApp] the reply to a send in an AI chat reaches that chat
    when the user has opened another chat in the meantime: after the
    send, the switch and the firing of the timer the send set, the
    history of the originating chat is what it was, then the user's
    message, then the reply. *)
Theorem app_reply_reaches_origin_after_switch
    (st : ChatApp.State) (c : ChatApp.Chat.t) (other : string) (now now' : Z) (pick : nat) :
  ChatApp.currentChat st = Some c -> ChatApp.Chat.id c <> "" ->
  ChatApp.Chat.type c = ai_chat -> ~ blank (ChatApp.newMessage st) ->
  other <> ChatApp.Chat.id c ->
  appHistory (ChatApp.Chat.id c)
    (ChatApp.chats
       (ChatApp.fireTimer (length (ChatApp.timers st)) now' pick
          (ChatApp.selectChat other (ChatApp.sendMessage now st))))
  = Some (ChatApp.Chat.messages c ++
          [ ChatApp.Message.mk (JS.toString now) (ChatApp.newMessage st)
              (TDate (DateMs now)) user true;
            ChatApp.Message.mk (JS.toString (now' + 1))
              (ChatApp.generateAIResponse pick (ChatApp.newMessage st))
              (TDate (DateMs now')) ai true ]).
Proof.
  intros Hc Hid Hty Hnb Hother.
  rewrite (sendMessage_passes now st c Hc Hid Hnb). cbv zeta. rewrite Hty. simpl.
  unfold ChatApp.fireTimer. simpl.
  rewrite lookup_app_r by lia. rewrite Nat.sub_diag. simpl.
  rewrite appHistory_appendTo, appHistory_markAsReadChats, appHistory_appendTo.
  unfold ChatApp.currentChat, ChatApp.findChat in Hc.
  destruct (currentChat_Some _ _ Hc) as [Ha _]. rewrite Ha in Hc.
  unfold appHistory. rewrite Hc. simpl.
  rewrite String.eqb_refl.
  destruct (String.eqb_spec (ChatApp.Chat.id c) other) as [E|E]; [congruence|].
  now rewrite <- app_assoc.
Qed.

Lemma app_reply_reaches_origin_after_switch_witness :
  appHistory "1" (ChatApp.chats Ex.appReplied)
  = Some (ChatApp.Chat.messages (Ex.appFirst Ex.appTyped) ++
          [ ChatApp.Message.mk "1700000001000" "hi" (TDate (DateMs 1700000001000)) user true;
            ChatApp.Message.mk "1700000003001" "Great point! I can help you with that."
              (TDate (DateMs 1700000003000)) ai true ]).
Proof.
  apply (app_reply_reaches_origin_after_switch Ex.appTyped (Ex.appFirst Ex.appTyped) "3"
           1700000001000 1700000003000 2).
  - reflexivity.
  - by_computation.
  - reflexivity.
  - by_computation.
  - by_computation.
Defined.

(** ** Trimming *)

Lemma trimEnd_idempotent (s : string) : JS.trimEnd (JS.trimEnd s) = JS.trimEnd s.
Proof.
  induction s as [|c s IH]; [reflexivity|]. simpl.
  destruct (JS.trimEnd s) as [|d u] eqn:E.
  - destruct (JS.isWhiteSpace c) eqn:Hc; [reflexivity|]. simpl. now rewrite Hc.
  - simpl in *. now rewrite IH.
Qed.

Lemma trimStart_startsClean (s : string) : startsClean (JS.trimStart s).
Proof.
  induction s as [|c s IH]; simpl; [exact I|].
  destruct (JS.isWhiteSpace c) eqn:Hc; [assumption | exact Hc].
Qed.

Lemma trimEnd_startsClean (s : string) : startsClean s -> startsClean (JS.trimEnd s).
Proof.
  destruct s as [|c s]; simpl; [auto|]. intros Hc.
  destruct (JS.trimEnd s); [rewrite Hc|]; exact Hc.
Qed.

Lemma trimStart_clean (s : string) : startsClean s -> JS.trimStart s = s.
Proof. destruct s as [|c s]; simpl; [reflexivity|]. now intros ->. Qed.

(** Trimming a trimmed text changes nothing. *)
Lemma trim_idempotent (s : string) : JS.trim (JS.trim s) = JS.trim s.
Proof.
  unfold JS.trim.
  rewrite (trimStart_clean (JS.trimEnd (JS.trimStart s))).
  - apply trimEnd_idempotent.
  - apply trimEnd_startsClean, trimStart_startsClean.
Qed.

Lemma trim_not_blank (s : string) : ~ blank s -> ~ blank (JS.trim s).
Proof.
  intros H Hb. apply H, trim_empty_iff.
  rewrite <- trim_idempotent. now apply trim_empty_iff.
Qed.

(** ** The route: sending and the reply *)

Section RouteSend.
Import ChatRoute.

Lemma handleSendMessage_passes (text : string) (now : Z) (st : State) (a : string) :
  activeChat st = Some a -> a <> "" ->
  handleSendMessage text now st =
  let newMessage := Message.mk (JS.toString now) text user (TDate (DateMs now)) sent in
  let messages' := <[a := messagesOf (messages st) a ++ [newMessage]]> (messages st) in
  let chats' := setLastMessage a newMessage (chats st) in
  if match findChat (chats st) (Some a) with
     | Some chat => ChatType_eqb (Chat.type chat) ai_chat
     | None => false
     end
  then mkState chats' (activeChat st) messages' (searchQuery st) true
         (isMobile st) (showSidebar st) (pending st ++ [mkPending a newMessage text])
  else mkState chats' (activeChat st) messages' (searchQuery st) (isTyping st)
         (isMobile st) (showSidebar st) (pending st).
Proof.
  intros Ha Hne. unfold handleSendMessage. rewrite Ha. simpl JS.truthy_opt.
  rewrite (truthy_nonempty _ Hne). reflexivity.
Qed.

Lemma setLastMessage_sets (a : string) (m : Message.t) (cs : list Chat.t) :
  Forall2 (fun c c' =>
             (Chat.id c = a -> c' = Chat.with_lastMessage m c) /\
             (Chat.id c <> a -> c' = c)) cs (setLastMessage a m cs).
Proof.
  unfold setLastMessage. apply Forall2_map_same. intros c.
  destruct (String.eqb_spec (Chat.id c) a); split; congruence.
Qed.

End RouteSend.

(** X5. On the route, sending a text that is not blank while a chat is
    active appends one message to the history kept under the active id
    and touches no other history: it is the user's, has status [sent], and
    its text is the composer text with the white space around it removed
    (trimming it again changes nothing). *)
Theorem route_send_appends_trimmed
    (rt : ChatRoute.State) (a inputText : string) (now : Z) :
  ChatRoute.activeChat rt = Some a -> a <> "" -> ~ blank inputText ->
  ChatRoute.messagesOf (ChatRoute.messages (ChatRoute.handleSend inputText now rt)) a
  = ChatRoute.messagesOf (ChatRoute.messages rt) a ++
    [ ChatRoute.Message.mk (JS.toString now) (JS.trim inputText) user
        (TDate (DateMs now)) ChatRoute.sent ] /\
  (forall k, k <> a ->
     ChatRoute.messages (ChatRoute.handleSend inputText now rt) !! k
     = ChatRoute.messages rt !! k) /\
  JS.trim (JS.trim inputText) = JS.trim inputText /\
  ~ blank (JS.trim inputText) /\
  ChatRoute.activeChat (ChatRoute.handleSend inputText now rt) = Some a.
Proof.
  intros Ha Hne Hnb. unfold ChatRoute.handleSend. rewrite (truthy_trim _ Hnb).
  rewrite (handleSendMessage_passes _ now rt a Ha Hne). cbv zeta.
  assert (forall (x y : ChatRoute.State) (b : bool),
             ChatRoute.messages x = ChatRoute.messages y ->
             ChatRoute.activeChat x = ChatRoute.activeChat y ->
             ChatRoute.messages (if b then x else y) = ChatRoute.messages y /\
             ChatRoute.activeChat (if b then x else y) = ChatRoute.activeChat y)
    as Hif by (intros x y []; intros; split; congruence).
  match goal with
  | |- context [if ?b then ?x else ?y] =>
      destruct (Hif x y b eq_refl eq_refl) as [-> ->]
  end.
  simpl. unfold ChatRoute.messagesOf at 1. rewrite lookup_insert_eq. simpl.
  split; [reflexivity|]. split.
  - intros k Hk. now rewrite lookup_insert_ne.
  - split; [apply trim_idempotent|]. split; [now apply trim_not_blank | exact Ha].
Qed.

Lemma route_send_appends_trimmed_witness :
  ChatRoute.messagesOf
    (ChatRoute.messages (ChatRoute.handleSend "  Hello " 1700000001000 Ex.routeOpen)) "1"
  = ChatRoute.messagesOf (ChatRoute.messages Ex.routeOpen) "1" ++
    [ ChatRoute.Message.mk (JS.toString 1700000001000) (JS.trim "  Hello ") user
        (TDate (DateMs 1700000001000)) ChatRoute.sent ] /\
  (forall k, k <> "1" ->
     ChatRoute.messages (ChatRoute.handleSend "  Hello " 1700000001000 Ex.routeOpen) !! k
     = ChatRoute.messages Ex.routeOpen !! k) /\
  JS.trim (JS.trim "  Hello ") = JS.trim "  Hello " /\
  ~ blank (JS.trim "  Hello ") /\
  ChatRoute.activeChat (ChatRoute.handleSend "  Hello " 1700000001000 Ex.routeOpen)
  = Some "1".
Proof.
  apply (route_send_appends_trimmed Ex.routeOpen "1" "  Hello " 1700000001000).
  - reflexivity.
  - by_computation.
  - by_computation.
Defined.

(** X6. On the route a send in an AI chat suspends once, capturing the
    id of that chat, the message it appended and the trimmed text, and
    shows the typing indicator; a send in a contact chat suspends nothing
    and leaves the indicator alone. *)
Theorem route_send_suspends_for_ai_only
    (rt : ChatRoute.State) (c : ChatRoute.Chat.t) (inputText : string) (now : Z) :
  ChatRoute.findChat (ChatRoute.chats rt) (ChatRoute.activeChat rt) = Some c ->
  ChatRoute.Chat.id c <> "" -> ~ blank inputText ->
  match ChatRoute.Chat.type c with
  | ai_chat =>
      ChatRoute.pending (ChatRoute.handleSend inputText now rt)
      = ChatRoute.pending rt ++
        [ ChatRoute.mkPending (ChatRoute.Chat.id c)
            (ChatRoute.Message.mk (JS.toString now) (JS.trim inputText) user
               (TDate (DateMs now)) ChatRoute.sent)
            (JS.trim inputText) ] /\
      ChatRoute.isTyping (ChatRoute.handleSend inputText now rt) = true
  | contact_chat =>
      ChatRoute.pending (ChatRoute.handleSend inputText now rt) = ChatRoute.pending rt /\
      ChatRoute.isTyping (ChatRoute.handleSend inputText now rt) = ChatRoute.isTyping rt
  end.
Proof.
  intros Hc Hne Hnb.
  assert (ChatRoute.activeChat rt = Some (ChatRoute.Chat.id c)) as Ha.
  { unfold ChatRoute.findChat in Hc. destruct (ChatRoute.activeChat rt) as [a|]; [|discriminate].
    apply List.find_some in Hc as [_ He]. apply String.eqb_eq in He. now rewrite He. }
  unfold ChatRoute.handleSend. rewrite (truthy_trim _ Hnb).
  rewrite (handleSendMessage_passes _ now rt _ Ha Hne). cbv zeta.
  rewrite Ha in Hc. rewrite Hc.
  destruct (ChatRoute.Chat.type c); simpl; split; reflexivity.
Qed.

Lemma route_send_suspends_for_ai_only_witness :
  ChatRoute.pending Ex.routeSent
  = ChatRoute.pending Ex.routeOpen ++
    [ ChatRoute.mkPending "1"
        (ChatRoute.Message.mk (JS.toString 1700000001000) (JS.trim "Hello") user
           (TDate (DateMs 1700000001000)) ChatRoute.sent)
        (JS.trim "Hello") ] /\
  ChatRoute.isTyping Ex.routeSent = true.
Proof.
  apply (route_send_suspends_for_ai_only Ex.routeOpen
           (List.hd (ChatRoute.Chat.mk "" "" ai_chat "" None 0 false)
              (ChatRoute.chats Ex.routeOpen))
           "Hello" 1700000001000).
  - reflexivity.
  - by_computation.
  - by_computation.
Defined.

(** X7. On the route, when a suspended send resumes, the history kept
    under the id it captured grows by the captured user message and then
    the reply, whichever chat is active, and no other history changes.
    The reply is the AI's with status [delivered]; the suspended send is
    gone, the typing indicator is off and the selection is as before. *)
Theorem route_reply_lands_under_captured_id
    (rt : ChatRoute.State) (i : nat) (p : ChatRoute.Pending) (now : Z) (pick : nat) :
  ChatRoute.pending rt !! i = Some p ->
  ChatRoute.messagesOf (ChatRoute.messages (ChatRoute.resolveReply i now pick rt))
    (ChatRoute.pending_chat p)
  = ChatRoute.messagesOf (ChatRoute.messages rt) (ChatRoute.pending_chat p) ++
    [ ChatRoute.pending_message p;
      ChatRoute.Message.mk (JS.toString (now + 1))
        (ChatRoute.getAIResponse pick (ChatRoute.pending_text p)) ai
        (TDate (DateMs now)) ChatRoute.delivered ] /\
  (forall k, k <> ChatRoute.pending_chat p ->
     ChatRoute.messages (ChatRoute.resolveReply i now pick rt) !! k
     = ChatRoute.messages rt !! k) /\
  ChatRoute.pending (ChatRoute.resolveReply i now pick rt) = delete i (ChatRoute.pending rt) /\
  ChatRoute.isTyping (ChatRoute.resolveReply i now pick rt) = false /\
  ChatRoute.activeChat (ChatRoute.resolveReply i now pick rt) = ChatRoute.activeChat rt.
Proof.
  intros Hp. unfold ChatRoute.resolveReply. rewrite Hp. simpl.
  unfold ChatRoute.messagesOf at 1. rewrite lookup_insert_eq. simpl.
  split; [reflexivity|]. split; [|repeat split].
  intros k Hk. now rewrite lookup_insert_ne.
Qed.

Lemma route_reply_lands_under_captured_id_witness :
  ChatRoute.messagesOf (ChatRoute.messages Ex.routeReplied) "1"
  = ChatRoute.messagesOf (ChatRoute.messages Ex.routeSent) "1" ++
    [ ChatRoute.Message.mk "1700000001000" "Hello" user
        (TDate (DateMs 1700000001000)) ChatRoute.sent;
      ChatRoute.Message.mk (JS.toString (1700000003000 + 1))
        (ChatRoute.getAIResponse 2 "Hello") ai
        (TDate (DateMs 1700000003000)) ChatRoute.delivered ] /\
  (forall k, k <> "1" ->
     ChatRoute.messages Ex.routeReplied !! k = ChatRoute.messages Ex.routeSent !! k) /\
  ChatRoute.pending Ex.routeReplied = delete 0 (ChatRoute.pending Ex.routeSent) /\
  ChatRoute.isTyping Ex.routeReplied = false /\
  ChatRoute.activeChat Ex.routeReplied = ChatRoute.activeChat Ex.routeSent.
Proof.
  apply (route_reply_lands_under_captured_id Ex.routeSent 0
           (ChatRoute.mkPending "1"
              (ChatRoute.Message.mk "1700000001000" "Hello" user
                 (TDate (DateMs 1700000001000)) ChatRoute.sent) "Hello")
           1700000003000 2).
  reflexivity.
Defined.

(** X8. On the route the [lastMessage] of a chat follows its history at
    a send and at a reply.  After a send in the active chat, whether or
    not other sends are pending, the last message kept under the active id
    is the message just built from the text and the clock reading, and it
    is the [lastMessage] of every chat with that id.  After the reply of a
    pending send the same holds of the reply and the captured id.  Chats
    with other ids are untouched in both cases. *)
Theorem route_lastMessage_follows_history
    (rt : ChatRoute.State) (text : string) (i : nat) (now : Z) (pick : nat) :
  (forall a, ChatRoute.activeChat rt = Some a -> a <> "" ->
     let m := ChatRoute.Message.mk (JS.toString now) text user
                (TDate (DateMs now)) ChatRoute.sent in
     last (ChatRoute.messagesOf
             (ChatRoute.messages (ChatRoute.handleSendMessage text now rt)) a) = Some m /\
     Forall2 (fun c c' =>
                (ChatRoute.Chat.id c = a -> c' = ChatRoute.Chat.with_lastMessage m c) /\
                (ChatRoute.Chat.id c <> a -> c' = c))
       (ChatRoute.chats rt) (ChatRoute.chats (ChatRoute.handleSendMessage text now rt))) /\
  (forall p, ChatRoute.pending rt !! i = Some p ->
     let m := ChatRoute.Message.mk (JS.toString (now + 1))
                (ChatRoute.getAIResponse pick (ChatRoute.pending_text p)) ai
                (TDate (DateMs now)) ChatRoute.delivered in
     last (ChatRoute.messagesOf
             (ChatRoute.messages (ChatRoute.resolveReply i now pick rt))
             (ChatRoute.pending_chat p)) = Some m /\
     Forall2 (fun c c' =>
                (ChatRoute.Chat.id c = ChatRoute.pending_chat p ->
                 c' = ChatRoute.Chat.with_lastMessage m c) /\
                (ChatRoute.Chat.id c <> ChatRoute.pending_chat p -> c' = c))
       (ChatRoute.chats rt) (ChatRoute.chats (ChatRoute.resolveReply i now pick rt))).
Proof.
  split.
  - intros a Ha Hne. cbv zeta.
    rewrite (handleSendMessage_passes text now rt a Ha Hne). cbv zeta. split.
    + match goal with
      | |- context [if ?b then _ else _] => destruct b
      end; simpl; unfold ChatRoute.messagesOf at 1; rewrite lookup_insert_eq; simpl;
        apply last_snoc.
    + match goal with
      | |- context [if ?b then _ else _] => destruct b
      end; simpl; apply setLastMessage_sets.
  - intros p Hp. cbv zeta. unfold ChatRoute.resolveReply. rewrite Hp. simpl. split.
    + unfold ChatRoute.messagesOf at 1. rewrite lookup_insert_eq. simpl.
      now rewrite last_app.
    + apply setLastMessage_sets.
Qed.

(** The send is the first of a session, with nothing pending; the reply
    is the one to it. *)
Lemma route_lastMessage_follows_history_witness :
  ChatRoute.pending Ex.routeOpen = [] /\
  (let m := ChatRoute.Message.mk "1700000001000" "Hello" user
              (TDate (DateMs 1700000001000)) ChatRoute.sent in
   last (ChatRoute.messagesOf
           (ChatRoute.messages
              (ChatRoute.handleSendMessage "Hello" 1700000001000 Ex.routeOpen)) "1")
   = Some m /\
   Forall2 (fun c c' =>
              (ChatRoute.Chat.id c = "1" -> c' = ChatRoute.Chat.with_lastMessage m c) /\
              (ChatRoute.Chat.id c <> "1" -> c' = c))
     (ChatRoute.chats Ex.routeOpen)
     (ChatRoute.chats (ChatRoute.handleSendMessage "Hello" 1700000001000 Ex.routeOpen))) /\
  (let m := ChatRoute.Message.mk "1700000003001" (ChatRoute.getAIResponse 2 "Hello") ai
              (TDate (DateMs 1700000003000)) ChatRoute.delivered in
   last (ChatRoute.messagesOf
           (ChatRoute.messages (ChatRoute.resolveReply 0 1700000003000 2 Ex.routeSent)) "1")
   = Some m /\
   Forall2 (fun c c' =>
              (ChatRoute.Chat.id c = "1" -> c' = ChatRoute.Chat.with_lastMessage m c) /\
              (ChatRoute.Chat.id c <> "1" -> c' = c))
     (ChatRoute.chats Ex.routeSent)
     (ChatRoute.chats (ChatRoute.resolveReply 0 1700000003000 2 Ex.routeSent))).
Proof.
  split; [reflexivity|]. split.
  - apply (proj1 (route_lastMessage_follows_history
                    Ex.routeOpen "Hello" 0 1700000001000 0) "1");
      [reflexivity | by_computation].
  - apply (proj2 (route_lastMessage_follows_history
                    Ex.routeSent "Hello" 0 1700000003000 2)
             (ChatRoute.mkPending "1"
                (ChatRoute.Message.mk "1700000001000" "Hello" user
                   (TDate (DateMs 1700000001000)) ChatRoute.sent) "Hello")).
    reflexivity.
Defined.

(** ** Creating a chat *)

(** X9. A created chat is put first and made active; it has no
    messages, no last message, unread count zero, is online and has the
    type asked for ([ChatApp]) or is an AI chat numbered after the AI
    chats there are (route); the chats there were follow unchanged.  Its
    id is derived from the clock reading, so chats created at different
    readings get different ids. *)
Theorem created_chat_is_fresh_and_active
    (st : ChatApp.State) (rt : ChatRoute.State) (ty : ChatType) (now now' : Z) :
  (exists c,
      ChatApp.chats (ChatApp.createNewChat ty now st) = c :: ChatApp.chats st /\
      ChatApp.activeChat (ChatApp.createNewChat ty now st) = Some (ChatApp.Chat.id c) /\
      ChatApp.Chat.messages c = [] /\ ChatApp.Chat.lastMessage c = None /\
      ChatApp.Chat.unreadCount c = 0 /\ ChatApp.Chat.isOnline c = true /\
      ChatApp.Chat.type c = ty /\ ChatApp.Chat.id c = JS.toString now) /\
  (exists c,
      ChatRoute.chats (ChatRoute.handleNewChat now rt) = c :: ChatRoute.chats rt /\
      ChatRoute.activeChat (ChatRoute.handleNewChat now rt) = Some (ChatRoute.Chat.id c) /\
      ChatRoute.messages (ChatRoute.handleNewChat now rt) = ChatRoute.messages rt /\
      ChatRoute.Chat.lastMessage c = None /\
      ChatRoute.Chat.unreadCount c = 0 /\ ChatRoute.Chat.isOnline c = true /\
      ChatRoute.Chat.type c = ai_chat /\
      ChatRoute.Chat.id c = "ai-" +:+ JS.toString now /\
      ChatRoute.Chat.name c
      = "AI Assistant " +:+
        JS.toString (Z.of_nat (length (List.filter
                                         (fun c => ChatType_eqb (ChatRoute.Chat.type c) ai_chat)
                                         (ChatRoute.chats rt))) + 1)) /\
  (JS.toString now = JS.toString now' -> now = now') /\
  ("ai-" +:+ JS.toString now = "ai-" +:+ JS.toString now' -> now = now').
Proof.
  split; [|split; [|split]].
  - eexists. repeat split.
  - eexists. repeat split.
  - apply pretty_Z_inj.
  - intros H. injection H as H. now apply pretty_Z_inj in H.
Qed.

(** ** The canned replies *)

(** X10. The text the route's reply simulator resolves to is one of the
    canned openers, a space, and then the greeting clause exactly when
    the message contains [hello] up to case, the filler clause
    otherwise. *)
Theorem getAIResponse_shape (pick : nat) (message : string) :
  pick < length ChatRoute.responses ->
  exists opener,
    opener ∈ ChatRoute.responses /\
    ((containsIgnoringCase message "hello" /\
      ChatRoute.getAIResponse pick message
      = opener +:+ " Hello there! How can I help you today?") \/
     (~ containsIgnoringCase message "hello" /\
      ChatRoute.getAIResponse pick message
      = opener +:+
        " This is a simulated AI response to demonstrate the chat functionality.")).
Proof.
  intros Hpick. unfold ChatRoute.getAIResponse.
  destruct (ChatRoute.responses !! pick) as [r|] eqn:E;
    [|apply lookup_ge_None in E; lia].
  exists r. split; [now apply list_elem_of_lookup_2 in E|]. simpl.
  destruct (JS.includes (JS.toLowerCase message) "hello") eqn:Hi.
  - left. split; [|reflexivity].
    now apply (includes_lower_spec message "hello").
  - right. split; [|reflexivity].
    intros Hc. apply (includes_lower_spec message "hello") in Hc.
    change (JS.toLowerCase "hello") with "hello" in Hc. congruence.
Qed.

Lemma getAIResponse_shape_witness :
  exists opener,
    opener ∈ ChatRoute.responses /\
    ((containsIgnoringCase "Oh, HeLLo!" "hello" /\
      ChatRoute.getAIResponse 4 "Oh, HeLLo!"
      = opener +:+ " Hello there! How can I help you today?") \/
     (~ containsIgnoringCase "Oh, HeLLo!" "hello" /\
      ChatRoute.getAIResponse 4 "Oh, HeLLo!"
      = opener +:+
        " This is a simulated AI response to demonstrate the chat functionality.")).
Proof. apply (getAIResponse_shape 4 "Oh, HeLLo!"). vm_compute. lia. Defined.

(** ** The two sections of the chat list *)

Lemma filter_partition_perm {A : Type} (f g : A -> bool) (l : list A) :
  (forall x, g x = negb (f x)) ->
  Permutation (List.filter f l ++ List.filter g l) l.
Proof.
  intros Hg. induction l as [|x l IH]; simpl; [constructor|].
  rewrite Hg. destruct (f x); simpl.
  - now constructor.
  - rewrite <- Permutation_middle. now constructor.
Qed.

(** X11. The sidebar of [ChatApp] splits the filtered chats in two: the
    AI section holds exactly the AI chats among them and the contact
    section exactly the contact chats, each in the order of the filtered
    list, and together they hold every filtered chat once. *)
Theorem sections_partition_filtered (cs : list ChatApp.Chat.t) (q : string) :
  selects (fun c => ChatApp.Chat.type c = ai_chat)
    (ChatApp.filteredChats cs q) (ChatApp.aiChats cs q) /\
  selects (fun c => ChatApp.Chat.type c = contact_chat)
    (ChatApp.filteredChats cs q) (ChatApp.contactChats cs q) /\
  Permutation (ChatApp.aiChats cs q ++ ChatApp.contactChats cs q)
    (ChatApp.filteredChats cs q).
Proof.
  split; [|split].
  - apply filter_selects. intros c. unfold ChatType_eqb. apply bool_decide_eq_true.
  - apply filter_selects. intros c. unfold ChatType_eqb. apply bool_decide_eq_true.
  - apply filter_partition_perm. intros c. unfold ChatType_eqb.
    now destruct (ChatApp.Chat.type c).
Qed.

(** ** Ages *)

(** X12. [formatLastSeen] labels a date by its age: under a minute (or in
    the future) [just now]; under an hour the whole minutes; under a day
    the whole hours; from a day on the whole days. *)
Theorem formatLastSeen_ranges (now d : Z) :
  ((now - d < 60000)%Z -> ChatApp.formatLastSeen now d = "just now") /\
  ((60000 <= now - d < 3600000)%Z ->
   ChatApp.formatLastSeen now d = JS.toString ((now - d) / 60000) +:+ "m ago" /\
   (1 <= (now - d) / 60000 <= 59)%Z) /\
  ((3600000 <= now - d < 86400000)%Z ->
   ChatApp.formatLastSeen now d = JS.toString ((now - d) / 3600000) +:+ "h ago" /\
   (1 <= (now - d) / 3600000 <= 23)%Z) /\
  ((86400000 <= now - d)%Z ->
   ChatApp.formatLastSeen now d = JS.toString ((now - d) / 86400000) +:+ "d ago" /\
   (1 <= (now - d) / 86400000)%Z).
Proof.
  unfold ChatApp.formatLastSeen, JS.floorDiv. cbv zeta.
  set (diff := (now - d)%Z).
  pose proof (Z.div_mod diff 60000 ltac:(lia)) as E1.
  pose proof (Z.mod_pos_bound diff 60000 ltac:(lia)) as B1.
  pose proof (Z.div_mod diff 3600000 ltac:(lia)) as E2.
  pose proof (Z.mod_pos_bound diff 3600000 ltac:(lia)) as B2.
  pose proof (Z.div_mod diff 86400000 ltac:(lia)) as E3.
  pose proof (Z.mod_pos_bound diff 86400000 ltac:(lia)) as B3.
  repeat split.
  - intros H. destruct (Z.ltb_spec (diff / 60000) 1); [reflexivity | lia].
  - destruct (Z.ltb_spec (diff / 60000) 1); [lia|].
    destruct (Z.ltb_spec (diff / 60000) 60); [reflexivity | lia].
  - lia.
  - lia.
  - destruct (Z.ltb_spec (diff / 60000) 1); [lia|].
    destruct (Z.ltb_spec (diff / 60000) 60); [lia|].
    destruct (Z.ltb_spec (diff / 3600000) 24); [reflexivity | lia].
  - lia.
  - lia.
  - destruct (Z.ltb_spec (diff / 60000) 1); [lia|].
    destruct (Z.ltb_spec (diff / 60000) 60); [lia|].
    destruct (Z.ltb_spec (diff / 3600000) 24); [lia | reflexivity].
  - lia.
Qed.

(** ** Mounting *)

(** X13. After [ChatApp] has mounted, the [lastMessage] of every chat is
    the last element of its messages (none for a chat without messages)
    and nothing else of any chat differs from the initial list; no chat
    is active, the composer and the query are empty and no reply is
    pending. *)
Theorem mounted_lastMessage_is_last (initial : list ChatApp.Chat.t) :
  Forall2 (fun c c' =>
             c' = ChatApp.Chat.with_lastMessage (last (ChatApp.Chat.messages c)) c)
    initial (ChatApp.chats (ChatApp.mounted initial)) /\
  Forall (fun c => ChatApp.Chat.lastMessage c = last (ChatApp.Chat.messages c))
    (ChatApp.chats (ChatApp.mounted initial)) /\
  ChatApp.activeChat (ChatApp.mounted initial) = None /\
  ChatApp.newMessage (ChatApp.mounted initial) = "" /\
  ChatApp.searchQuery (ChatApp.mounted initial) = "" /\
  ChatApp.timers (ChatApp.mounted initial) = [].
Proof.
  split; [|split; [|repeat split]].
  - simpl. unfold ChatApp.updateLastMessages. now apply Forall2_map_same.
  - simpl. unfold ChatApp.updateLastMessages. apply List.Forall_forall.
    intros c' Hin. now apply List.in_map_iff in Hin as (c & <- & _).
Qed.

(** ** Selecting twice *)

Lemma markAsReadChats_idempotent (chatId : string) (cs : list ChatApp.Chat.t) :
  ChatApp.markAsReadChats chatId (ChatApp.markAsReadChats chatId cs)
  = ChatApp.markAsReadChats chatId cs.
Proof.
  unfold ChatApp.markAsReadChats. rewrite List.map_map. apply List.map_ext. intros c.
  destruct (String.eqb_spec (ChatApp.Chat.id c) chatId) as [E|E]; simpl.
  - apply String.eqb_eq in E. rewrite E. unfold ChatApp.Chat.with_unreadCount_messages.
    simpl. f_equal. rewrite List.map_map. now apply List.map_ext.
  - apply String.eqb_neq in E. now rewrite E.
Qed.

Lemma clearUnread_idempotent (chatId : string) (cs : list ChatRoute.Chat.t) :
  ChatRoute.clearUnread chatId (ChatRoute.clearUnread chatId cs)
  = ChatRoute.clearUnread chatId cs.
Proof.
  unfold ChatRoute.clearUnread. rewrite List.map_map. apply List.map_ext. intros c.
  destruct (String.eqb_spec (ChatRoute.Chat.id c) chatId) as [E|E]; simpl.
  - apply String.eqb_eq in E. now rewrite E.
  - apply String.eqb_neq in E. now rewrite E.
Qed.

Lemma markMessagesRead_idempotent (chatId : string)
    (ms : gmap string (list ChatRoute.Message.t)) :
  ChatRoute.markMessagesRead chatId (ChatRoute.markMessagesRead chatId ms)
  = ChatRoute.markMessagesRead chatId ms.
Proof.
  unfold ChatRoute.markMessagesRead at 1. rewrite messagesOf_markMessagesRead.
  unfold ChatRoute.markMessagesRead. rewrite insert_insert_eq. f_equal.
  rewrite List.map_map. apply List.map_ext. intros m.
  destruct (negb (Sender_eqb (ChatRoute.Message.sender m) user)) eqn:E; simpl; now rewrite E.
Qed.

(** X14. Marking a chat read is idempotent, and so is selecting a chat,
    in both implementations: selecting the chat that was just selected
    changes nothing. *)
Theorem select_is_idempotent
    (st : ChatApp.State) (rt : ChatRoute.State) (chatId : string) :
  ChatApp.markAsRead chatId (ChatApp.markAsRead chatId st) = ChatApp.markAsRead chatId st /\
  ChatApp.selectChat chatId (ChatApp.selectChat chatId st) = ChatApp.selectChat chatId st /\
  ChatRoute.handleChatSelect chatId (ChatRoute.handleChatSelect chatId rt)
  = ChatRoute.handleChatSelect chatId rt.
Proof.
  split; [|split].
  - unfold ChatApp.markAsRead. simpl. now rewrite markAsReadChats_idempotent.
  - unfold ChatApp.selectChat, ChatApp.markAsRead. simpl.
    now rewrite markAsReadChats_idempotent.
  - unfold ChatRoute.handleChatSelect. simpl.
    rewrite clearUnread_idempotent, markMessagesRead_idempotent.
    now destruct (ChatRoute.isMobile rt).
Qed.

(** ** Histories only grow *)

Section AppHistoryGrows.
Import ChatApp.

Lemma sameButRead_refl (m : Message.t) : sameButRead m m.
Proof. now unfold sameButRead. Qed.

Lemma sameButRead_trans (m1 m2 m3 : Message.t) :
  sameButRead m1 m2 -> sameButRead m2 m3 -> sameButRead m1 m3.
Proof. unfold sameButRead. intros (? & ? & ? & ?) (? & ? & ? & ?). repeat split; congruence. Qed.

Lemma Forall2_sameButRead_trans (l1 l2 l3 : list Message.t) :
  Forall2 sameButRead l1 l2 -> Forall2 sameButRead l2 l3 -> Forall2 sameButRead l1 l3.
Proof.
  intros H12. revert l3. induction H12 as [|x y l l' Hxy _ IH]; intros l3 H23.
  - inversion H23. constructor.
  - inversion H23; subst. constructor; [eapply sameButRead_trans|]; eauto.
Qed.

Lemma historyExtended_refl (c : Chat.t) : historyExtended c c.
Proof.
  split; [reflexivity|]. exists (Chat.messages c), []. split; [now rewrite app_nil_r|].
  apply Forall2_same, sameButRead_refl.
Qed.

Lemma historyExtended_trans (c1 c2 c3 : Chat.t) :
  historyExtended c1 c2 -> historyExtended c2 c3 -> historyExtended c1 c3.
Proof.
  intros [Hi (k2 & a2 & E2 & H2)] [Hi' (k3 & a3 & E3 & H3)].
  split; [congruence|]. rewrite E2 in H3.
  apply Forall2_app_inv_l in H3 as (k3a & k3b & Ha & Hb & ->).
  exists k3a, (k3b ++ a3). split; [now rewrite E3, <- app_assoc|].
  now apply (Forall2_sameButRead_trans _ k2).
Qed.

Lemma historyExtended_appendTo (a : string) (m : Message.t) (cs : list Chat.t) :
  Forall2 historyExtended cs (appendTo a m cs).
Proof.
  unfold appendTo. apply Forall2_map_same. intros c.
  destruct (String.eqb (Chat.id c) a); [|apply historyExtended_refl].
  split; [reflexivity|]. exists (Chat.messages c), [m]. split; [reflexivity|].
  apply Forall2_same, sameButRead_refl.
Qed.

Lemma historyExtended_markAsReadChats (a : string) (cs : list Chat.t) :
  Forall2 historyExtended cs (markAsReadChats a cs).
Proof.
  unfold markAsReadChats. apply Forall2_map_same. intros c.
  destruct (String.eqb (Chat.id c) a); [|apply historyExtended_refl].
  split; [reflexivity|].
  exists (List.map (Message.with_isRead true) (Chat.messages c)), []. simpl.
  split; [now rewrite app_nil_r|].
  apply Forall2_map_same. intros m. now unfold sameButRead.
Qed.

Lemma Forall2_historyExtended_trans (l1 l2 l3 : list Chat.t) :
  Forall2 historyExtended l1 l2 -> Forall2 historyExtended l2 l3 ->
  Forall2 historyExtended l1 l3.
Proof.
  intros H12. revert l3. induction H12 as [|x y l l' Hxy _ IH]; intros l3 H23.
  - inversion H23. constructor.
  - inversion H23; subst. constructor; [eapply historyExtended_trans|]; eauto.
Qed.

Lemma nothingLost_refl (cs : list Chat.t) : nothingLost cs cs.
Proof.
  exists [], cs. split; [reflexivity|]. apply Forall2_same, historyExtended_refl.
Qed.

Lemma nothingLost_extended (cs0 cs cs' : list Chat.t) :
  nothingLost cs0 cs -> Forall2 historyExtended cs cs' -> nothingLost cs0 cs'.
Proof.
  intros (created & kept & -> & Hk) H.
  apply Forall2_app_inv_l in H as (c' & k' & _ & Hk' & ->).
  exists c', k'. split; [reflexivity|].
  now apply (Forall2_historyExtended_trans _ kept).
Qed.

Lemma step_nothingLost (cs0 : list Chat.t) (s s' : State) :
  step s s' -> nothingLost cs0 (chats s) -> nothingLost cs0 (chats s').
Proof.
  intros Hstep H. destruct Hstep as [st q|st t _|st now _|st i now pick _ _|st ty now|st c _];
    simpl; auto.
  - destruct (sendMessage_chats now st) as [->|(a & _ & _ & ->)]; [assumption|].
    eapply nothingLost_extended; [eassumption | apply historyExtended_appendTo].
  - destruct (fireTimer_chats i now pick st) as [->|(tm & _ & ->)]; [assumption|].
    eapply nothingLost_extended; [eassumption | apply historyExtended_appendTo].
  - destruct H as (created & kept & -> & Hk).
    now exists (Chat.mk (JS.toString now)
                  match ty with
                  | ai_chat => "New AI Assistant"
                  | contact_chat => "New Contact"
                  end ty
                  match ty with
                  | ai_chat => ":robot:"
                  | contact_chat => ":bust:"
                  end None [] true 0 :: created), kept.
  - eapply nothingLost_extended; [eassumption | apply historyExtended_markAsReadChats].
Qed.

Lemma step_userTextsNotBlank (s s' : State) :
  step s s' -> appUserTextsNotBlank (chats s) -> appUserTextsNotBlank (chats s').
Proof.
  unfold appUserTextsNotBlank.
  assert (forall a m cs,
             (Message.sender m = user -> ~ blank (Message.text m)) ->
             Forall (fun c => Forall (fun m => Message.sender m = user ->
                                               ~ blank (Message.text m))
                                (Chat.messages c)) cs ->
             Forall (fun c => Forall (fun m => Message.sender m = user ->
                                               ~ blank (Message.text m))
                                (Chat.messages c)) (appendTo a m cs)) as Happ.
  { intros a m cs Hm Hcs. unfold appendTo. apply List.Forall_forall. intros c' Hin.
    apply List.in_map_iff in Hin as (c & <- & Hin).
    rewrite List.Forall_forall in Hcs. specialize (Hcs c Hin).
    destruct (String.eqb (Chat.id c) a); [|assumption]. simpl.
    apply Forall_app. split; [assumption|]. now constructor. }
  intros Hstep H. destruct Hstep as [st q|st t _|st now _|st i now pick _ _|st ty now|st c _];
    simpl; auto.
  - destruct (sendMessage_chats now st) as [->|(a & _ & Hnb & ->)]; [assumption|].
    apply Happ; auto.
  - destruct (fireTimer_chats i now pick st) as [->|(tm & _ & ->)]; [assumption|].
    apply Happ; [discriminate | assumption].
  - unfold markAsReadChats. apply List.Forall_forall. intros c' Hin.
    apply List.in_map_iff in Hin as (c0 & <- & Hin).
    rewrite List.Forall_forall in H. specialize (H c0 Hin).
    destruct (String.eqb (Chat.id c0) (Chat.id c)); [|assumption]. simpl.
    apply List.Forall_forall. intros m Hm.
    apply List.in_map_iff in Hm as (m0 & <- & Hm). simpl.
    rewrite List.Forall_forall in H. now apply H.
Qed.

End AppHistoryGrows.

(** X15. In [ChatApp] nothing is ever lost: in every state reached from
    [s0] the chats of [s0] are all there, in their order, behind the chats
    created since, and each still holds the messages it had, in their
    order and with their ids, texts, timestamps and senders, followed by
    the messages that arrived since. *)
Theorem app_histories_only_grow (s0 s : ChatApp.State) :
  ChatApp.reachable s0 s -> nothingLost (ChatApp.chats s0) (ChatApp.chats s).
Proof.
  induction 1 as [|s s' _ IH Hstep]; [apply nothingLost_refl|].
  eapply step_nothingLost; eauto.
Qed.

Lemma app_histories_only_grow_witness :
  nothingLost (ChatApp.chats Ex.app0) (ChatApp.chats Ex.appReplied).
Proof. exact (app_histories_only_grow Ex.app0 Ex.appReplied app_example_reachable). Defined.

(** X16. In [ChatApp] a message of the user never has a blank text: if
    that holds of the chats of [s0], it holds in every state reached from
    [s0]. *)
Theorem app_user_texts_never_blank (s0 s : ChatApp.State) :
  ChatApp.reachable s0 s ->
  appUserTextsNotBlank (ChatApp.chats s0) -> appUserTextsNotBlank (ChatApp.chats s).
Proof.
  induction 1 as [|s s' _ IH Hstep]; intros H0; [assumption|].
  eapply step_userTextsNotBlank; eauto.
Qed.

Lemma app_user_texts_never_blank_witness :
  appUserTextsNotBlank (ChatApp.chats Ex.appReplied).
Proof.
  apply (app_user_texts_never_blank Ex.app0 Ex.appReplied app_example_reachable).
  repeat constructor; discriminate.
Defined.
